(** * Object-centric option-critic helpers: metrics logger and environment factory

    Shallow embedding of [logger.py] (class [Logger]) and of
    [src/envs/common.py] (the vectorised-environment factory), together with
    the properties the specification states about them.

    Conventions of the embedding.
    - Python [int] is [Z]; Python [str] is [string] (environment names and
      tags are ASCII); [None]-able parameters are [option].
    - Python [float] results ([np.mean], true division, [Tensor.item()]) are
      exact rationals [Q]: the quotient that is recorded is the mathematical
      one, rounding to binary64 is not part of the model.
    - A raised exception is the [Raise] result of a state-and-error monad;
      the state reached before the raise is kept, as in Python.
    - Constructors of the external libraries (stable-baselines3, scobi,
      tensorboard) are constructors of inductive types that record the
      arguments they were called with. What the libraries do with them is
      not part of the model: that they may raise (an empty list of
      environments, a seed outside the range the seeding accepts, a missing
      statistics file) and that the containers call the factories they are
      given. Statements about a call that returns are about the calls this
      module makes. *)

From Stdlib Require Import ZArith QArith String Ascii List Bool Lia DecimalString.
From Stdlib Require Import DecimalPos DecimalZ.
From stdpp Require Import base list gmap strings.

Set Default Proof Using "Type".
Local Open Scope Z_scope.

(** ** Python exceptions and the state-and-error monad *)

Inductive PyError : Type :=
| IndexError
| KeyError (key : string)
| ValueError (msg : string)
| ZeroDivisionError.

Inductive Result (A : Type) : Type :=
| Ok (a : A)
| Raise (e : PyError).
Arguments Ok {A} a.
Arguments Raise {A} e.

(** A computation over a mutable store [S]: it always yields the store it
    reached, also when it raises. *)
Definition M (S A : Type) : Type := S -> Result A * S.

Definition ret {S A} (a : A) : M S A := fun s => (Ok a, s).
Definition raise {S A} (e : PyError) : M S A := fun s => (Raise e, s).
Definition bind {S A B} (m : M S A) (k : A -> M S B) : M S B :=
  fun s => match m s with
           | (Ok a, s') => k a s'
           | (Raise e, s') => (Raise e, s')
           end.
Definition lift {S A} (r : Result A) : M S A := fun s => (r, s).
Definition modify {S} (f : S -> S) : M S unit := fun s => (Ok tt, f s).

Declare Scope py_scope.
Delimit Scope py_scope with py.
Notation "'do' x <- m ; k" := (bind m (fun x => k))
  (at level 10, x name, m at level 100, k at level 200, only parsing) : py_scope.
Notation "'run' m ; k" := (bind m (fun _ => k))
  (at level 10, m at level 100, k at level 200, only parsing) : py_scope.

(** The same sequencing for code that raises but touches no store. *)
Definition rbind {A B} (r : Result A) (k : A -> Result B) : Result B :=
  match r with
  | Ok a => k a
  | Raise e => Raise e
  end.
Notation "'try' x <- r ; k" := (rbind r (fun x => k))
  (at level 10, x name, r at level 100, k at level 200, only parsing) : py_scope.

(** Python's [for x in xs: body]. *)
Fixpoint for_each {S A} (xs : list A) (body : A -> M S unit) : M S unit :=
  match xs with
  | [] => ret tt
  | x :: xs' => bind (body x) (fun _ => for_each xs' body)
  end.

(** ** The fragment of Python's [str] and [int] the code uses *)

Module Py.

(** [s.startswith(p)] *)
Fixpoint startswith (p s : string) : bool :=
  match p, s with
  | EmptyString, _ => true
  | String _ _, EmptyString => false
  | String a p', String b s' => Ascii.eqb a b && startswith p' s'
  end.

(** [sub in s] on strings *)
Fixpoint contains (sub s : string) : bool :=
  startswith sub s ||
  match s with
  | EmptyString => false
  | String _ s' => contains sub s'
  end.

(** [s.split(sep)] for a one-character separator; never the empty list. *)
Fixpoint split (sep : ascii) (s : string) : list string :=
  match s with
  | EmptyString => [EmptyString]
  | String c s' =>
      if Ascii.eqb c sep then EmptyString :: split sep s'
      else match split sep s' with
           | [] => [String c EmptyString]
           | w :: ws => String c w :: ws
           end
  end.

(** [xs[i]] on a list: [IndexError] out of range. *)
Definition getitem {A} (xs : list A) (i : nat) : Result A :=
  match xs !! i with
  | Some x => Ok x
  | None => Raise IndexError
  end.

Definition lower_char (c : ascii) : ascii :=
  let n := nat_of_ascii c in
  if (65 <=? n)%nat && (n <=? 90)%nat then ascii_of_nat (n + 32) else c.

(** [s.lower()] *)
Fixpoint lower (s : string) : string :=
  match s with
  | EmptyString => EmptyString
  | String c s' => String (lower_char c) (lower s')
  end.

(** [s[n:]] *)
Fixpoint slice_from (n : nat) (s : string) : string :=
  match n, s with
  | O, _ => s
  | S _, EmptyString => EmptyString
  | S n', String _ s' => slice_from n' s'
  end.

(** [str(z)] for an [int] *)
Definition str_of_int (z : Z) : string := NilZero.string_of_int (Z.to_int z).

(** [range(n)]: empty when [n <= 0]. *)
Definition range (n : Z) : list Z := map Z.of_nat (seq 0 (Z.to_nat n)).

(** [d[k]] on a dictionary with string keys: [KeyError] when absent. *)
Definition dict_getitem {V} (d : gmap string V) (k : string) : Result V :=
  match d !! k with
  | Some v => Ok v
  | None => Raise (KeyError k)
  end.

(** [c in s] for a character. *)
Fixpoint has_char (c : ascii) (s : string) : bool :=
  match s with
  | EmptyString => false
  | String a s' => Ascii.eqb a c || has_char c s'
  end.

(** [s[-1]], when there is one. *)
Fixpoint last_char (s : string) : option ascii :=
  match s with
  | EmptyString => None
  | String a EmptyString => Some a
  | String _ s' => last_char s'
  end.

End Py.

(** ** [src/envs/common.py]: the environment factory *)

Module EnvsCommon.
Local Open Scope py_scope.

(** Values passed through [**kwargs] and keyword dictionaries. *)
Inductive PyVal : Type :=
| VNone
| VBool (b : bool)
| VInt (z : Z)
| VStr (s : string).

Definition kwargs : Type := list (string * PyVal).

Definition of_optional_str (o : option string) : PyVal :=
  match o with
  | None => VNone
  | Some s => VStr s
  end.

(** [str(x)] inside an f-string, for a parameter that may be [None]. *)
Definition format_optional_str (o : option string) : string :=
  match o with
  | None => "None"
  | Some s => s
  end.

(** [x == lit] for a parameter that may be [None]. *)
Definition eq_str (o : option string) (lit : string) : bool :=
  match o with
  | None => false
  | Some s => String.eqb s lit
  end.

(** [pathlib.Path(dir, file)]: the two arguments of the constructor call.
    How pathlib joins them (an absolute [file] replaces [dir]) is not
    modelled; the fields are the arguments, not [parent] and [name]. *)
Record Path : Type := mkPath { path_dir : string; path_file : string }.

(** [ScobiEnv(name, focus_dir=, focus_file=, hide_properties=, silent=,
    reward_mode=, refresh_yaml=, hud=, **kwargs)] *)
Record ScobiEnv : Type := mkScobiEnv {
  se_name : string;
  se_focus_dir : string;
  se_focus_file : option string;
  se_hide_properties : option bool;
  se_silent : bool;
  se_reward_mode : Z;
  se_refresh_yaml : bool;
  se_hud : bool;
  se_kwargs : kwargs
}.

(** [Monitor(env)], the episode-statistics wrapper; [env] is its attribute. *)
Record Monitor : Type := mkMonitor { env : ScobiEnv }.

(** The closure [_init] returned by [make_scobi_env]: its captured
    variables. *)
Record ScobiFactory : Type := mkScobiFactory {
  c_name : string;
  c_focus_dir : string;
  c_pruned_ff_name : option string;
  c_exclude_properties : option bool;
  c_rank : Z;
  c_seed : Z;
  c_silent : bool;
  c_refresh : bool;
  c_reward_mode : Z;
  c_kwargs : kwargs
}.

(** Calls into the external libraries that act on the process: the trace
    of the factory, oldest first. *)
Inductive Event : Type :=
| set_random_seed (seed : Z)
| env_reset (m : Monitor) (seed : Z)
| check_env (e : ScobiEnv).

Definition Trace : Type := list Event.
Definition emit (e : Event) : M Trace unit := modify (fun tr => tr ++ [e]).

Inductive VecEnvCls : Type := SubprocVecEnvCls | DummyVecEnvCls.

(** Vectorised containers: the two stable-baselines3 classes applied to a
    list of factories, and the container [make_atari_env] builds. *)
Inductive VecEnv : Type :=
| SubprocVecEnv (env_fns : list ScobiFactory) (start_method : string)
| DummyVecEnv (env_fns : list ScobiFactory)
| make_atari_env (env_id : string) (n_envs seed : Z) (env_kwargs : kwargs)
    (vec_env_cls : VecEnvCls) (vec_env_kwargs : option kwargs)
    (wrapper_kwargs : kwargs).

(** The handle [init_vec_env] returns. [VecNormalize_load p v t] is
    [VecNormalize.load(p, v)] followed by [env.training = t]. *)
Inductive Env : Type :=
| VecNormalize (venv : VecEnv) (norm_obs norm_reward training : bool)
| VecNormalize_load (load_path : string) (venv : VecEnv) (training : bool)
| VecFrameStack (venv : VecEnv) (n_stack : Z).

Definition get_atari_identifier (env_name : string) : Result string :=
  try after_slash <- Py.getitem (Py.split "/" env_name) 1;
  try before_dash <- Py.getitem (Py.split "-" after_slash) 0;
  Ok (Py.lower before_dash).

Definition get_pruned_focus_file_from_env_name (name : string) : Result string :=
  try env_identifier <-
    (if Py.contains "ALE" name then get_atari_identifier name else Ok name);
  Ok (env_identifier +:+ ".yaml").

(** The identifier both resolvers derive from an environment name: the
    conditional that opens [get_pruned_focus_file_from_env_name] and
    [get_focus_file_path]. *)
Definition env_identifier (env_name : string) : Result string :=
  if Py.contains "ALE" env_name then get_atari_identifier env_name
  else Ok env_name.

(** [_init()]: build the object-centric environment, wrap it, reset it. *)
Definition _init (f : ScobiFactory) : M Trace Monitor :=
  let e := {| se_name := c_name f;
              se_focus_dir := c_focus_dir f;
              se_focus_file := c_pruned_ff_name f;
              se_hide_properties := c_exclude_properties f;
              se_silent := c_silent f;
              se_reward_mode := c_reward_mode f;
              se_refresh_yaml := c_refresh f;
              se_hud := true;
              se_kwargs := c_kwargs f |} in
  let m := mkMonitor e in
  run emit (env_reset m (c_seed f + c_rank f));
  ret m.

Definition make_scobi_env (name focus_dir : string)
    (pruned_ff_name : option string) (exclude_properties : option bool)
    (rank seed : Z) (silent refresh : bool) (reward_mode : Z)
    (kw : kwargs) : M Trace ScobiFactory :=
  run emit (set_random_seed seed);
  ret {| c_name := name;
         c_focus_dir := focus_dir;
         c_pruned_ff_name := pruned_ff_name;
         c_exclude_properties := exclude_properties;
         c_rank := rank;
         c_seed := seed;
         c_silent := silent;
         c_refresh := refresh;
         c_reward_mode := reward_mode;
         c_kwargs := kw |}.

(** A list comprehension whose element expression acts on the store. *)
Fixpoint comprehension {S A B} (f : A -> M S B) (xs : list A) : M S (list B) :=
  match xs with
  | [] => ret []
  | x :: xs' => do y <- f x; do ys <- comprehension f xs'; ret (y :: ys)
  end.

(** The parameters of [init_vec_env], defaults filled in by the caller. *)
Record VecEnvArgs : Type := mkVecEnvArgs {
  name : string;
  n_envs : Z;
  seed : Z;
  object_centric : bool;
  reward_mode : Z;
  prune_concept : option string;
  exclude_properties : option bool;
  frameskip : Z;
  framestack : Z;
  normalize_observation : bool;
  normalize_reward : bool;
  vec_norm_path : option string;
  train : bool;
  freeze_invisible_obj : bool;
  render_mode : option string;
  render_oc_overlay : bool
}.

(** What [init_train_eval_envs] forwards as [**kwargs]: the parameters of
    [init_vec_env] it does not set itself. A caller that also forwards one
    of the parameters the function sets ([render_mode] for the eval call)
    gets Python's [TypeError] for the repeated keyword; such calls are
    outside this type. *)
Record ForwardedArgs : Type := mkForwardedArgs {
  k_name : string;
  k_object_centric : bool;
  k_prune_concept : option string;
  k_exclude_properties : option bool;
  k_frameskip : Z;
  k_framestack : Z;
  k_normalize_observation : bool;
  k_normalize_reward : bool;
  k_vec_norm_path : option string;
  k_freeze_invisible_obj : bool;
  k_render_oc_overlay : bool
}.

(** [init_vec_env(n_envs=, seed=, train=, reward_mode=, render_mode=, **kwargs)] *)
Definition call_args (n_envs seed : Z) (train : bool) (reward_mode : Z)
    (render_mode : option string) (k : ForwardedArgs) : VecEnvArgs :=
  {| name := k_name k;
     n_envs := n_envs;
     seed := seed;
     object_centric := k_object_centric k;
     reward_mode := reward_mode;
     prune_concept := k_prune_concept k;
     exclude_properties := k_exclude_properties k;
     frameskip := k_frameskip k;
     framestack := k_framestack k;
     normalize_observation := k_normalize_observation k;
     normalize_reward := k_normalize_reward k;
     vec_norm_path := k_vec_norm_path k;
     train := train;
     freeze_invisible_obj := k_freeze_invisible_obj k;
     render_mode := render_mode;
     render_oc_overlay := k_render_oc_overlay k |}.

Section Constants.
(** The constants imported from the project's [common] module. *)
Variable FOCUS_FILES_DIR : string.
Variable FOCUS_FILES_DIR_UNPRUNED : string.
Variable REWARD_MODE : gmap string Z.
Variable MULTIPROCESSING_START_METHOD : string.

Definition get_focus_file_path (prune_concept env_name : string) : Result Path :=
  try env_identifier <-
    (if Py.contains "ALE" env_name then get_atari_identifier env_name
     else Ok env_name);
  if String.eqb prune_concept "default" then
    Ok (mkPath FOCUS_FILES_DIR (env_identifier +:+ ".yaml"))
  else if String.eqb prune_concept "unpruned" then
    Ok (mkPath FOCUS_FILES_DIR_UNPRUNED
          ("default_focus_" +:+ Py.slice_from 4 env_name +:+ ".yaml"))
  else
    Raise (ValueError ("Unknown prune concept " +:+ prune_concept +:+ " given.")).

(** The focus directory and file the object-centric branch resolves. *)
Definition resolve_focus (a : VecEnvArgs) : Result (string * option string) :=
  if eq_str (prune_concept a) "unpruned" then
    Ok (FOCUS_FILES_DIR_UNPRUNED, None)
  else if eq_str (prune_concept a) "default" then
    try pruned_ff_name <- get_pruned_focus_file_from_env_name (name a);
    Ok (FOCUS_FILES_DIR, Some pruned_ff_name)
  else
    Raise (ValueError ("Unknown prune concept '" +:+
                       format_optional_str (prune_concept a) +:+ "'.")).

Definition init_vec_env (a : VecEnvArgs) : M Trace Env :=
  if object_centric a then
    do focus <- lift (resolve_focus a);
    let focus_dir := fst focus in
    let pruned_ff_name := snd focus in
    (* Verify compatibility with Gymnasium *)
    do probe <- make_scobi_env (name a) focus_dir pruned_ff_name
                  (exclude_properties a) 0 0 false true (reward_mode a)
                  [("freeze_invisible_obj", VBool (freeze_invisible_obj a))];
    do monitor <- _init probe;
    run emit (check_env (env monitor));
    do envs <- comprehension
                 (fun i => make_scobi_env (name a) focus_dir pruned_ff_name
                             (exclude_properties a) i (seed a) true false
                             (reward_mode a)
                             [("render_mode", of_optional_str (render_mode a));
                              ("freeze_invisible_obj", VBool (freeze_invisible_obj a));
                              ("render_oc_overlay", VBool (render_oc_overlay a))])
                 (Py.range (n_envs a));
    let vec_env :=
      if 1 <? n_envs a then SubprocVecEnv envs MULTIPROCESSING_START_METHOD
      else DummyVecEnv envs in
    (* Wrap with (either existing or new) VecNormalize *)
    match vec_norm_path a with
    | Some path => ret (VecNormalize_load path vec_env (train a))
    | None => ret (VecNormalize vec_env (normalize_observation a)
                     (normalize_reward a) (train a))
    end
  else
    let cls_and_kwargs :=
      if 1 <? n_envs a
      then (SubprocVecEnvCls, Some [("start_method", VStr MULTIPROCESSING_START_METHOD)])
      else (DummyVecEnvCls, None) in
    let vec_env :=
      make_atari_env (name a) (n_envs a) (seed a)
        [("render_mode", of_optional_str (render_mode a))]
        (fst cls_and_kwargs) (snd cls_and_kwargs)
        [("frame_skip", VInt (frameskip a))] in
    ret (VecFrameStack vec_env (framestack a)).

Definition init_train_eval_envs (n_train_envs n_eval_envs seed : Z)
    (reward_mode : string) (render_eval : bool) (kw : ForwardedArgs)
    : M Trace (Env * Env) :=
  let eval_seed := (seed + 42) * 2 in
  do train_reward_mode <- lift (Py.dict_getitem REWARD_MODE reward_mode);
  do train_env <- init_vec_env
                    (call_args n_train_envs seed true train_reward_mode None kw);
  let eval_render_mode := if render_eval then Some "human" else None in
  do eval_env <- init_vec_env
                   (call_args n_eval_envs eval_seed false 0 eval_render_mode kw);
  ret (train_env, eval_env).

End Constants.

(** Observations on a handle. *)
Definition venv_of (e : Env) : VecEnv :=
  match e with
  | VecNormalize v _ _ _ => v
  | VecNormalize_load _ v _ => v
  | VecFrameStack v _ => v
  end.

Definition container_kind (v : VecEnv) : VecEnvCls :=
  match v with
  | SubprocVecEnv _ _ => SubprocVecEnvCls
  | DummyVecEnv _ => DummyVecEnvCls
  | make_atari_env _ _ _ _ cls _ _ => cls
  end.

Definition factories (v : VecEnv) : list ScobiFactory :=
  match v with
  | SubprocVecEnv fs _ => fs
  | DummyVecEnv fs => fs
  | make_atari_env _ _ _ _ _ _ _ => []
  end.

Definition is_normalized (e : Env) : bool :=
  match e with
  | VecNormalize _ _ _ _ => true
  | VecNormalize_load _ _ _ => true
  | VecFrameStack _ _ => false
  end.

Definition is_frame_stacked_pixel (e : Env) : bool :=
  match e with
  | VecFrameStack (make_atari_env _ _ _ _ _ _ _) _ => true
  | _ => false
  end.

(** What a handle was built from: the seed, render mode and reward mode
    handed to the library that constructs its environments. The pixel
    builder is handed no reward mode. *)
Definition built_with_seed (s : Z) (e : Env) : Prop :=
  match venv_of e with
  | make_atari_env _ _ s' _ _ _ _ => s' = s
  | v => Forall (fun f => c_seed f = s) (factories v)
  end.

Definition built_with_render_mode (r : option string) (e : Env) : Prop :=
  match venv_of e with
  | make_atari_env _ _ _ kw _ _ _ => kw = [("render_mode", of_optional_str r)]
  | v => Forall (fun f => In ("render_mode", of_optional_str r) (c_kwargs f))
           (factories v)
  end.

Definition built_with_reward_mode (m : Z) (e : Env) : Prop :=
  Forall (fun f => c_reward_mode f = m) (factories (venv_of e)).

(** The same configuration with other normalisation settings. *)
Definition with_normalization (obs rew : bool) (path : option string)
    (a : VecEnvArgs) : VecEnvArgs :=
  {| name := name a;
     n_envs := n_envs a;
     seed := seed a;
     object_centric := object_centric a;
     reward_mode := reward_mode a;
     prune_concept := prune_concept a;
     exclude_properties := exclude_properties a;
     frameskip := frameskip a;
     framestack := framestack a;
     normalize_observation := obs;
     normalize_reward := rew;
     vec_norm_path := path;
     train := train a;
     freeze_invisible_obj := freeze_invisible_obj a;
     render_mode := render_mode a;
     render_oc_overlay := render_oc_overlay a |}.

(** The forwarded part of a configuration. *)
Definition forwarded (a : VecEnvArgs) : ForwardedArgs :=
  {| k_name := name a;
     k_object_centric := object_centric a;
     k_prune_concept := prune_concept a;
     k_exclude_properties := exclude_properties a;
     k_frameskip := frameskip a;
     k_framestack := framestack a;
     k_normalize_observation := normalize_observation a;
     k_normalize_reward := normalize_reward a;
     k_vec_norm_path := vec_norm_path a;
     k_freeze_invisible_obj := freeze_invisible_obj a;
     k_render_oc_overlay := render_oc_overlay a |}.

(** A call [init_vec_env(name, n_envs, seed, object_centric, reward_mode,
    prune_concept)] that leaves the other parameters at their defaults. *)
Definition default_args (name : string) (n_envs seed : Z)
    (object_centric : bool) (reward_mode : Z) (prune_concept : option string)
    : VecEnvArgs :=
  {| name := name;
     n_envs := n_envs;
     seed := seed;
     object_centric := object_centric;
     reward_mode := reward_mode;
     prune_concept := prune_concept;
     exclude_properties := None;
     frameskip := 4;
     framestack := 1;
     normalize_observation := false;
     normalize_reward := false;
     vec_norm_path := None;
     train := false;
     freeze_invisible_obj := false;
     render_mode := None;
     render_oc_overlay := false |}.

(** The factory of rank [i] that the object-centric branch builds. *)
Definition ranked_factory (a : VecEnvArgs) (focus : string * option string)
    (i : Z) : ScobiFactory :=
  {| c_name := name a;
     c_focus_dir := fst focus;
     c_pruned_ff_name := snd focus;
     c_exclude_properties := exclude_properties a;
     c_rank := i;
     c_seed := seed a;
     c_silent := true;
     c_refresh := false;
     c_reward_mode := reward_mode a;
     c_kwargs := [("render_mode", of_optional_str (render_mode a));
                  ("freeze_invisible_obj", VBool (freeze_invisible_obj a));
                  ("render_oc_overlay", VBool (render_oc_overlay a))] |}.

(** The container and the wrapper of the object-centric branch. *)
Definition container_of (start_method : string) (a : VecEnvArgs)
    (envs : list ScobiFactory) : VecEnv :=
  if 1 <? n_envs a then SubprocVecEnv envs start_method
  else DummyVecEnv envs.

Definition wrapper_of (a : VecEnvArgs) (v : VecEnv) : Env :=
  match vec_norm_path a with
  | Some path => VecNormalize_load path v (train a)
  | None => VecNormalize v (normalize_observation a) (normalize_reward a) (train a)
  end.

(** The probe the object-centric branch builds, checks and discards. *)
Definition probe_env (a : VecEnvArgs) (focus : string * option string) : ScobiEnv :=
  {| se_name := name a;
     se_focus_dir := fst focus;
     se_focus_file := snd focus;
     se_hide_properties := exclude_properties a;
     se_silent := false;
     se_reward_mode := reward_mode a;
     se_refresh_yaml := true;
     se_hud := true;
     se_kwargs := [("freeze_invisible_obj", VBool (freeze_invisible_obj a))] |}.

(** The seeds with which the environments of a handle are reset when its
    factories are called, in rank order. *)
Definition reset_seeds (e : Env) : list Z :=
  map (fun f => c_seed f + c_rank f) (factories (venv_of e)).

(** The same configuration with other frame-skip and frame-stack values. *)
Definition with_frames (skip stack : Z) (a : VecEnvArgs) : VecEnvArgs :=
  {| name := name a;
     n_envs := n_envs a;
     seed := seed a;
     object_centric := object_centric a;
     reward_mode := reward_mode a;
     prune_concept := prune_concept a;
     exclude_properties := exclude_properties a;
     frameskip := skip;
     framestack := stack;
     normalize_observation := normalize_observation a;
     normalize_reward := normalize_reward a;
     vec_norm_path := vec_norm_path a;
     train := train a;
     freeze_invisible_obj := freeze_invisible_obj a;
     render_mode := render_mode a;
     render_oc_overlay := render_oc_overlay a |}.

(** The [training] attribute of a normalisation wrapper. *)
Definition training_flag (e : Env) : option bool :=
  match e with
  | VecNormalize _ _ _ t => Some t
  | VecNormalize_load _ _ t => Some t
  | VecFrameStack _ _ => None
  end.

End EnvsCommon.

(** ** [logger.py]: the metrics recorder *)

Module Logger.
Local Open Scope py_scope.

(** A zero-dimensional [torch.Tensor]: the loss of one optimisation step. *)
Record Tensor : Type := mkTensor { item : Q }.

(** [bool(x)] for an optional loss, as the [if] statement takes it:
    [None] is false, a tensor is true when its element is non-zero. *)
Definition truth (x : option Tensor) : bool :=
  match x with
  | None => false
  | Some t => negb (Qeq_bool (item t) 0%Q)
  end.

(** One [SummaryWriter.add_scalar(tag=, scalar_value=, global_step=)] call. *)
Record Scalar : Type := mkScalar {
  tag : string;
  scalar_value : Q;
  global_step : Z
}.

(** The fields interpolated into the [logging.info] line of an episode. *)
Record EpisodeLine : Type := mkEpisodeLine {
  line_ep : Z;
  line_total_steps : Z;
  line_reward : Q;
  line_episode_steps : Z;
  line_hours : Q;
  line_epsilon : Q
}.

(** The instance: its attributes, the scalars its [SummaryWriter] has
    received and the lines its logging handlers have received, oldest
    first. *)
Record Logger : Type := mkLogger {
  target_path : string;
  tf_writer : option unit;
  start_time : Q;
  n_eps : Z;
  writer : list Scalar;
  log_lines : list EpisodeLine
}.

(** [Logger(log_dir)]; [now] is what [time.time()] returns. Creating the
    directory and opening the sink act on the file system only. *)
Definition __init__ (log_dir : string) (now : Q) : Logger :=
  {| target_path := log_dir;
     tf_writer := None;
     start_time := now;
     n_eps := 0;
     writer := [];
     log_lines := [] |}.

Definition set_n_eps (n : Z) (l : Logger) : Logger :=
  {| target_path := target_path l; tf_writer := tf_writer l;
     start_time := start_time l; n_eps := n;
     writer := writer l; log_lines := log_lines l |}.

Definition add_scalar (tag : string) (scalar_value : Q) (global_step : Z)
    : M Logger unit :=
  modify (fun l =>
    {| target_path := target_path l; tf_writer := tf_writer l;
       start_time := start_time l; n_eps := n_eps l;
       writer := writer l ++ [mkScalar tag scalar_value global_step];
       log_lines := log_lines l |}).

Definition logging_info (line : EpisodeLine) : M Logger unit :=
  modify (fun l =>
    {| target_path := target_path l; tf_writer := tf_writer l;
       start_time := start_time l; n_eps := n_eps l;
       writer := writer l;
       log_lines := log_lines l ++ [line] |}).

(** Reading an attribute of [self]. *)
Definition attr {A} (f : Logger -> A) : M Logger A := fun l => (Ok (f l), l).

(** [sum(lens)] *)
Definition sum (lens : list Z) : Z := fold_right Z.add 0 lens.

(** [np.mean(lens)] of a non-empty list of integers: the exact mean, of
    which the code records the binary64 rounding. *)
Definition np_mean (lens : list Z) : Q :=
  (inject_Z (sum lens) / inject_Z (Z.of_nat (length lens)))%Q.

(** [a / b] on integers: true division, as the exact quotient of which
    the code records the binary64 rounding. *)
Definition truediv (a b : Z) : Result Q :=
  if b =? 0 then Raise ZeroDivisionError else Ok (inject_Z a / inject_Z b)%Q.

Definition avg_length_tag (option : Z) : string :=
  "option_" +:+ Py.str_of_int option +:+ "_avg_length".
Definition active_tag (option : Z) : string :=
  "option_" +:+ Py.str_of_int option +:+ "_active".

(** The body of the loop over [option_lengths.items()]. *)
Definition option_statistics (ep_steps : Z) (item : Z * list Z) : M Logger unit :=
  let option := fst item in
  let lens := snd item in
  do ep <- attr n_eps;
  run add_scalar (avg_length_tag option)
        (if (0 <? length lens)%nat then np_mean lens else 0%Q) ep;
  do active <- lift (truediv (sum lens) ep_steps);
  do ep <- attr n_eps;
  add_scalar (active_tag option) active ep.

(** [option_lengths] is a dictionary iterated in insertion order: its
    [items()]. [now] is what [time.time()] returns. *)
Definition log_episode (now : Q) (steps : Z) (reward : Q)
    (option_lengths : list (Z * list Z)) (ep_steps : Z) (epsilon : Q)
    : M Logger unit :=
  run modify (fun l => set_n_eps (n_eps l + 1) l);
  do ep <- attr n_eps;
  do started <- attr start_time;
  run logging_info
        {| line_ep := ep; line_total_steps := steps; line_reward := reward;
           line_episode_steps := ep_steps;
           line_hours := ((now - started) / 60 / 60)%Q;
           line_epsilon := epsilon |};
  do ep <- attr n_eps;
  run add_scalar "episodic_rewards" reward ep;
  do ep <- attr n_eps;
  run add_scalar "episode_lengths" (inject_Z ep_steps) ep;
  (* Keep track of options statistics *)
  for_each option_lengths (option_statistics ep_steps).

(** Each [if] tests the loss itself; its body reads [item()], which only a
    tensor has. *)
Definition log_data (step : Z) (actor_loss critic_loss : option Tensor)
    (entropy epsilon : Q) : M Logger unit :=
  run (if truth actor_loss
       then match actor_loss with
            | Some t => add_scalar "actor_loss" (item t) step
            | None => ret tt
            end
       else ret tt);
  run (if truth critic_loss
       then match critic_loss with
            | Some t => add_scalar "critic_loss" (item t) step
            | None => ret tt
            end
       else ret tt);
  run add_scalar "policy_entropy" entropy step;
  add_scalar "epsilon" epsilon step.

(** A caller's use of one recorder: any sequence of the two methods. An
    exception a call raises leaves the recorder as the call left it. *)
Inductive Call : Type :=
| call_log_episode (now : Q) (steps : Z) (reward : Q)
    (option_lengths : list (Z * list Z)) (ep_steps : Z) (epsilon : Q)
| call_log_data (step : Z) (actor_loss critic_loss : option Tensor)
    (entropy epsilon : Q).

Definition perform (c : Call) : M Logger unit :=
  match c with
  | call_log_episode now steps reward ol ep_steps epsilon =>
      log_episode now steps reward ol ep_steps epsilon
  | call_log_data step al cl entropy epsilon =>
      log_data step al cl entropy epsilon
  end.

Definition perform_all (cs : list Call) (l : Logger) : Logger :=
  fold_left (fun l c => snd (perform c l)) cs l.

Definition is_log_episode (c : Call) : bool :=
  match c with
  | call_log_episode _ _ _ _ _ _ => true
  | call_log_data _ _ _ _ _ => false
  end.

(** The recorder after its writer received [xs]. *)
Definition push (xs : list Scalar) (l : Logger) : Logger :=
  {| target_path := target_path l; tf_writer := tf_writer l;
     start_time := start_time l; n_eps := n_eps l;
     writer := writer l ++ xs;
     log_lines := log_lines l |}.

(** The two scalars of one option, for episode [ep]. *)
Definition avg_length_scalar (ep : Z) (item : Z * list Z) : Scalar :=
  mkScalar (avg_length_tag (fst item))
    (if (0 <? length (snd item))%nat then np_mean (snd item) else 0%Q) ep.

Definition active_scalar (ep ep_steps : Z) (item : Z * list Z) : Scalar :=
  mkScalar (active_tag (fst item))
    (inject_Z (sum (snd item)) / inject_Z ep_steps)%Q ep.

(** What one call of [log_episode] hands to the writer. *)
Definition episode_scalars (ep : Z) (reward : Q)
    (option_lengths : list (Z * list Z)) (ep_steps : Z) : list Scalar :=
  [mkScalar "episodic_rewards" reward ep;
   mkScalar "episode_lengths" (inject_Z ep_steps) ep]
  ++ (if ep_steps =? 0
      then match option_lengths with
           | [] => []
           | item :: _ => [avg_length_scalar ep item]
           end
      else flat_map (fun item => [avg_length_scalar ep item;
                                  active_scalar ep ep_steps item])
             option_lengths).

(** How many of the calls are [log_episode]. *)
Definition episode_calls (cs : list Call) : Z :=
  fold_right (fun c k => if is_log_episode c then k + 1 else k) 0 cs.

(** The steps under which a tag was written, oldest first. *)
Definition steps_tagged (t : string) (w : list Scalar) : list Z :=
  map global_step (List.filter (fun e => String.eqb (tag e) t) w).

End Logger.

(** ** Facts about the string primitives *)

Section StringFacts.
Import Py.
Local Arguments String.append !_ _ / : simpl nomatch.

Example split_pong : split "/" "ALE/Pong-v5" = ["ALE"; "Pong-v5"].
Proof. reflexivity. Qed.

Example split_keeps_empty_fields : split "/" "a//b/" = ["a"; ""; "b"; ""].
Proof. reflexivity. Qed.

Example split_empty : split "/" "" = [""].
Proof. reflexivity. Qed.

Example lower_mixed : lower "Ms-Pacman5" = "ms-pacman5".
Proof. reflexivity. Qed.

Example slice_from_short : slice_from 4 "ALE/Pong-v5" = "Pong-v5" /\ slice_from 4 "ab" = "".
Proof. split; reflexivity. Qed.

Example contains_inside : contains "ALE" "MyALEGame" = true /\ contains "ALE" "ale/pong" = false.
Proof. split; reflexivity. Qed.

Example str_of_int_signs :
  str_of_int (-12) = "-12" /\ str_of_int 0 = "0" /\ str_of_int 7 = "7".
Proof. repeat split. Qed.

Example range_small : range 3 = [0; 1; 2] /\ range 0 = [] /\ range (-2) = [].
Proof. repeat split. Qed.

Lemma append_empty_r (s : string) : s +:+ "" = s.
Proof. induction s as [|a s IH]; simpl; [done|]. by rewrite IH. Qed.

Lemma startswith_app (p s : string) : startswith p (p +:+ s) = true.
Proof.
  induction p as [|a p IH]; simpl; [done|].
  by rewrite Ascii.eqb_refl, IH.
Qed.

Lemma contains_app_l (p s : string) : contains p (p +:+ s) = true.
Proof.
  destruct p; simpl; [by destruct s|].
  by rewrite Ascii.eqb_refl, startswith_app.
Qed.

Lemma split_not_nil (c : ascii) (s : string) : split c s <> [].
Proof.
  induction s as [|a s IH]; simpl; [done|].
  destruct (Ascii.eqb a c); [done|].
  by destruct (split c s).
Qed.

(** A prefix free of the separator stays glued to the first field. *)
Lemma split_app_no_sep (c : ascii) (a s : string) :
  has_char c a = false ->
  split c (a +:+ s) =
    match split c s with
    | [] => [a]
    | w :: ws => (a +:+ w) :: ws
    end.
Proof.
  induction a as [|x a IH]; simpl; intros H.
  - pose proof (split_not_nil c s). by destruct (split c s).
  - apply orb_false_iff in H as [Hx Ha].
    rewrite Hx, (IH Ha).
    destruct (split c s) eqn:E; [|done].
    by destruct (split_not_nil c s).
Qed.

Lemma split_sep_first (c : ascii) (a s : string) :
  has_char c a = false ->
  split c (a +:+ String c s) = a :: split c s.
Proof.
  intros H. rewrite (split_app_no_sep c a _ H). simpl.
  by rewrite Ascii.eqb_refl, append_empty_r.
Qed.

Lemma split_no_sep (c : ascii) (s : string) :
  has_char c s = false -> split c s = [s].
Proof.
  induction s as [|a s IH]; simpl; [done|].
  intros H. apply orb_false_iff in H as [Ha Hs].
  by rewrite Ha, (IH Hs).
Qed.

Lemma split_length_has_char (c : ascii) (s : string) :
  has_char c s = true -> (2 <= length (split c s))%nat.
Proof.
  induction s as [|a s IH]; simpl; [done|].
  destruct (Ascii.eqb a c); simpl; intros H.
  - pose proof (split_not_nil c s). destruct (split c s); [done|simpl; lia].
  - specialize (IH H). destruct (split c s); simpl in *; lia.
Qed.

End StringFacts.

(** ** The focus-file resolvers *)

Section FocusFiles.
Import Py EnvsCommon.
Local Arguments String.append !_ _ / : simpl nomatch.

Lemma get_atari_identifier_no_slash (env_name : string) :
  has_char "/" env_name = false ->
  get_atari_identifier env_name = Raise IndexError.
Proof.
  intros H. unfold get_atari_identifier.
  by rewrite (split_no_sep _ _ H).
Qed.

Lemma get_atari_identifier_slash (env_name : string) :
  has_char "/" env_name = true ->
  exists identifier, get_atari_identifier env_name = Ok identifier.
Proof.
  intros H. unfold get_atari_identifier.
  pose proof (split_length_has_char _ _ H) as Hlen.
  destruct (split "/" env_name) as [|w0 [|w1 ws]]; simpl in Hlen; try lia.
  cbn [getitem lookup list_lookup rbind].
  pose proof (split_not_nil "-" w1) as Hne.
  destruct (split "-" w1) as [|g gs]; [done|].
  by eexists.
Qed.

(** The game between the first "/" and the following "-". *)
Lemma get_atari_identifier_game (game rest : string) :
  has_char "/" game = false ->
  has_char "-" game = false ->
  get_atari_identifier ("ALE/" +:+ game +:+ "-" +:+ rest) = Ok (lower game).
Proof.
  intros Hslash Hdash. unfold get_atari_identifier.
  change ("ALE/" +:+ game +:+ "-" +:+ rest)
    with ("ALE" +:+ String "/" (game +:+ String "-" rest)).
  rewrite (split_sep_first "/" "ALE") by reflexivity.
  rewrite (split_app_no_sep "/" game _ Hslash).
  cbn [split]. change (Ascii.eqb "-" "/") with false. cbv iota.
  pose proof (split_not_nil "/" rest) as Hne.
  destruct (split "/" rest) as [|w ws]; [done|].
  cbn [getitem lookup list_lookup rbind].
  rewrite (split_sep_first "-" game w Hdash).
  reflexivity.
Qed.

Lemma env_identifier_raises (env_name : string) :
  contains "ALE" env_name = true ->
  has_char "/" env_name = false ->
  env_identifier env_name = Raise IndexError.
Proof.
  intros HA Hs. unfold env_identifier. rewrite HA.
  by apply get_atari_identifier_no_slash.
Qed.

Lemma env_identifier_returns (env_name : string) :
  (exists identifier, env_identifier env_name = Ok identifier) <->
  (contains "ALE" env_name = false \/ has_char "/" env_name = true).
Proof.
  unfold env_identifier. split.
  - intros [identifier H].
    destruct (contains "ALE" env_name); [|by left].
    destruct (has_char "/" env_name) eqn:Hs; [by right|].
    by rewrite (get_atari_identifier_no_slash _ Hs) in H.
  - intros [HA|Hs].
    + rewrite HA. by eexists.
    + destruct (contains "ALE" env_name); [|by eexists].
      by apply get_atari_identifier_slash.
Qed.

Lemma get_pruned_focus_file_env_identifier (name : string) :
  get_pruned_focus_file_from_env_name name =
  rbind (env_identifier name) (fun identifier => Ok (identifier +:+ ".yaml")).
Proof. reflexivity. Qed.

(** C2 (as amended). For every name "ALE/<Game>-<rest>" whose <Game> holds
    neither "/" nor "-" (so also "ALE/<Game>-v<rev>"),
    [get_pruned_focus_file_from_env_name] returns the lower-cased <Game>
    followed by ".yaml"; for every name that does not contain "ALE" it
    returns the name unchanged followed by ".yaml". *)
Theorem focus_file_name_resolution :
  (forall game rest : string,
      has_char "/" game = false ->
      has_char "-" game = false ->
      get_pruned_focus_file_from_env_name ("ALE/" +:+ game +:+ "-" +:+ rest)
      = Ok (lower game +:+ ".yaml"))
  /\ (forall name : string,
        contains "ALE" name = false ->
        get_pruned_focus_file_from_env_name name = Ok (name +:+ ".yaml")).
Proof.
  split.
  - intros game rest Hslash Hdash.
    unfold get_pruned_focus_file_from_env_name.
    change ("ALE/" +:+ game +:+ "-" +:+ rest)
      with ("ALE" +:+ ("/" +:+ game +:+ "-" +:+ rest)) at 1.
    rewrite contains_app_l.
    by rewrite (get_atari_identifier_game game rest Hslash Hdash).
  - intros name H. unfold get_pruned_focus_file_from_env_name.
    by rewrite H.
Qed.

(** The two examples of the specification, and a game whose name has a
    dash, through the theorem. *)
Lemma focus_file_name_resolution_witness :
  get_pruned_focus_file_from_env_name "ALE/Pong-v5" = Ok "pong.yaml"
  /\ get_pruned_focus_file_from_env_name "MyCustomGame" = Ok "MyCustomGame.yaml".
Proof.
  split.
  - apply (proj1 focus_file_name_resolution "Pong" "v5"); reflexivity.
  - apply (proj2 focus_file_name_resolution "MyCustomGame"); reflexivity.
Defined.

(** C2 as stated fails: "MyALEGame" is not of the form "ALE/<Game>-v<rev>",
    yet it is not passed through: the membership test ["ALE" in name] sends
    it to [get_atari_identifier], whose [split("/")[1]] is out of range. *)
Lemma focus_file_name_not_passed_through :
  startswith "ALE/" "MyALEGame" = false
  /\ get_pruned_focus_file_from_env_name "MyALEGame" = Raise IndexError
  /\ get_pruned_focus_file_from_env_name "MyALEGame" <> Ok "MyALEGame.yaml".
Proof. split; [reflexivity|]. split; [reflexivity|discriminate]. Qed.

End FocusFiles.

(** ** Resolution of the focus-file path and the pruning concept *)

Section FocusPath.
Import Py EnvsCommon.
Variables FOCUS_FILES_DIR FOCUS_FILES_DIR_UNPRUNED : string.
Variable MULTIPROCESSING_START_METHOD : string.

Abbreviation focus_path :=
  (get_focus_file_path FOCUS_FILES_DIR FOCUS_FILES_DIR_UNPRUNED).
Abbreviation vec_env :=
  (init_vec_env FOCUS_FILES_DIR FOCUS_FILES_DIR_UNPRUNED
     MULTIPROCESSING_START_METHOD).

Lemma get_focus_file_path_env_identifier (prune_concept env_name : string) :
  focus_path prune_concept env_name =
  rbind (env_identifier env_name) (fun identifier =>
    if String.eqb prune_concept "default" then
      Ok (mkPath FOCUS_FILES_DIR (identifier +:+ ".yaml"))
    else if String.eqb prune_concept "unpruned" then
      Ok (mkPath FOCUS_FILES_DIR_UNPRUNED
            ("default_focus_" +:+ slice_from 4 env_name +:+ ".yaml"))
    else
      Raise (ValueError ("Unknown prune concept " +:+ prune_concept +:+ " given."))).
Proof. reflexivity. Qed.

Lemma eq_str_false (o : option string) (lit : string) :
  o <> Some lit -> eq_str o lit = false.
Proof.
  destruct o as [s|]; simpl; [|done].
  intros H. apply String.eqb_neq. congruence.
Qed.

Lemma resolve_focus_unknown (a : VecEnvArgs) :
  prune_concept a <> Some "default" ->
  prune_concept a <> Some "unpruned" ->
  exists msg, resolve_focus FOCUS_FILES_DIR FOCUS_FILES_DIR_UNPRUNED a
              = Raise (ValueError msg).
Proof.
  intros Hd Hu. unfold resolve_focus.
  rewrite (eq_str_false _ _ Hu), (eq_str_false _ _ Hd). by eexists.
Qed.

(** C5 (as amended). For every environment name whose identifier is
    derived (the name does not contain "ALE", or it has a "/"),
    [get_focus_file_path] returns <focus-dir>/<identifier>.yaml for
    "default", <unpruned-focus-dir>/default_focus_<env_name[4:]>.yaml for
    "unpruned", and raises [ValueError] exactly for every other concept. The
    object-centric branch of [init_vec_env] raises [ValueError] on every
    other concept as well, before it does anything else. *)
Theorem focus_file_path_resolution (prune_concept env_name : string) :
  (forall identifier : string,
      env_identifier env_name = Ok identifier ->
      (prune_concept = "default" ->
         focus_path prune_concept env_name
         = Ok (mkPath FOCUS_FILES_DIR (identifier +:+ ".yaml")))
      /\ (prune_concept = "unpruned" ->
            focus_path prune_concept env_name
            = Ok (mkPath FOCUS_FILES_DIR_UNPRUNED
                    ("default_focus_" +:+ slice_from 4 env_name +:+ ".yaml")))
      /\ ((exists msg, focus_path prune_concept env_name = Raise (ValueError msg))
          <-> (prune_concept <> "default" /\ prune_concept <> "unpruned")))
  /\ ((exists identifier : string, env_identifier env_name = Ok identifier)
      <-> (contains "ALE" env_name = false \/ has_char "/" env_name = true))
  /\ (forall (a : VecEnvArgs) (tr : Trace),
        object_centric a = true ->
        EnvsCommon.prune_concept a <> Some "default" ->
        EnvsCommon.prune_concept a <> Some "unpruned" ->
        exists msg, vec_env a tr = (Raise (ValueError msg), tr)).
Proof.
  split; [|split].
  - intros identifier Hid. rewrite get_focus_file_path_env_identifier, Hid.
    cbn [rbind]. split; [|split].
    + by intros ->.
    + by intros ->.
    + destruct (String.eqb_spec prune_concept "default") as [->|Hd].
      { split; [by intros [msg H]|by intros [H _]]. }
      destruct (String.eqb_spec prune_concept "unpruned") as [->|Hu].
      { split; [by intros [msg H]|by intros [_ H]]. }
      split; [done|]. intros _. by eexists.
  - apply env_identifier_returns.
  - intros a tr Hoc Hd Hu. unfold init_vec_env. rewrite Hoc.
    destruct (resolve_focus_unknown a Hd Hu) as [msg Hmsg].
    exists msg. unfold bind, lift. by rewrite Hmsg.
Qed.

End FocusPath.

(** The specification's example, an unpruned path and an unknown concept,
    through the theorem. *)
Lemma focus_file_path_resolution_witness :
  EnvsCommon.get_focus_file_path "focusfiles" "focusfiles_unpruned"
    "default" "ALE/Breakout-v5"
  = Ok (EnvsCommon.mkPath "focusfiles" "breakout.yaml")
  /\ EnvsCommon.get_focus_file_path "focusfiles" "focusfiles_unpruned"
       "unpruned" "ALE/Pong-v5"
     = Ok (EnvsCommon.mkPath "focusfiles_unpruned" "default_focus_Pong-v5.yaml")
  /\ exists msg,
       EnvsCommon.get_focus_file_path "focusfiles" "focusfiles_unpruned"
         "bogus" "MyCustomGame"
       = Raise (ValueError msg).
Proof.
  split; [|split].
  - apply (proj1 (focus_file_path_resolution "focusfiles"
             "focusfiles_unpruned" "fork" "default" "ALE/Breakout-v5")
             "breakout"); reflexivity.
  - apply (proj1 (focus_file_path_resolution "focusfiles"
             "focusfiles_unpruned" "fork" "unpruned" "ALE/Pong-v5")
             "pong"); reflexivity.
  - apply (proj1 (focus_file_path_resolution "focusfiles"
             "focusfiles_unpruned" "fork" "bogus" "MyCustomGame")
             "MyCustomGame"); [reflexivity|].
    split; discriminate.
Defined.

(** C5 as stated fails on a name that contains "ALE" and no "/": the
    identifier is derived before the concept is looked at, so "unpruned"
    returns no path and an unknown concept raises [IndexError], not the
    configuration error. *)
Lemma focus_file_path_identifier_first :
  (forall focus_dir unpruned_dir : string,
      EnvsCommon.get_focus_file_path focus_dir unpruned_dir "unpruned" "MyALEGame"
      = Raise IndexError)
  /\ (forall focus_dir unpruned_dir : string,
        EnvsCommon.get_focus_file_path focus_dir unpruned_dir "bogus" "MyALEGame"
        = Raise IndexError).
Proof. split; reflexivity. Qed.

(** ** The vectorised-environment factory *)

Section Factory.
Import Py EnvsCommon.
Variables FOCUS_FILES_DIR FOCUS_FILES_DIR_UNPRUNED : string.
Variable REWARD_MODE : gmap string Z.
Variable MULTIPROCESSING_START_METHOD : string.

Abbreviation focus_of := (resolve_focus FOCUS_FILES_DIR FOCUS_FILES_DIR_UNPRUNED).
Abbreviation vec_env_of :=
  (init_vec_env FOCUS_FILES_DIR FOCUS_FILES_DIR_UNPRUNED
     MULTIPROCESSING_START_METHOD).
Abbreviation train_eval_of :=
  (init_train_eval_envs FOCUS_FILES_DIR FOCUS_FILES_DIR_UNPRUNED REWARD_MODE
     MULTIPROCESSING_START_METHOD).

Lemma comprehension_emit {A B} (f : A -> M Trace B) (g : A -> B)
    (h : A -> Event) (xs : list A) :
  (forall x tr, f x tr = (Ok (g x), tr ++ [h x])) ->
  forall tr, comprehension f xs tr = (Ok (map g xs), tr ++ map h xs).
Proof.
  intros Hf. induction xs as [|x xs IH]; intros tr; simpl.
  - unfold ret. by rewrite app_nil_r.
  - unfold bind at 1. rewrite Hf. unfold bind at 1. rewrite IH.
    unfold ret. by rewrite <- app_assoc.
Qed.

Lemma init_vec_env_object_centric (a : VecEnvArgs) (tr : Trace) :
  object_centric a = true ->
  vec_env_of a tr =
  match focus_of a with
  | Raise e => (Raise e, tr)
  | Ok focus =>
      (Ok (wrapper_of a (container_of MULTIPROCESSING_START_METHOD a
             (map (ranked_factory a focus) (range (n_envs a))))),
       tr ++ [set_random_seed 0;
              env_reset (mkMonitor (probe_env a focus)) 0;
              check_env (probe_env a focus)]
          ++ map (fun _ => set_random_seed (seed a)) (range (n_envs a)))
  end.
Proof.
  intros Hoc. unfold init_vec_env. rewrite Hoc.
  unfold bind at 1, lift. destruct (focus_of a) as [focus|e]; [|done].
  unfold bind at 1. unfold make_scobi_env at 1, bind at 1, emit, modify, ret.
  unfold bind at 1. unfold _init, bind at 1, emit, modify, ret.
  unfold bind at 1. unfold bind at 1.
  rewrite (comprehension_emit _ (ranked_factory a focus)
             (fun _ => set_random_seed (seed a))).
  - unfold wrapper_of, container_of, probe_env. cbn [env].
    rewrite <- !app_assoc. cbn [app].
    by destruct (vec_norm_path a).
  - intros i t. reflexivity.
Qed.

Lemma init_vec_env_pixel (a : VecEnvArgs) (tr : Trace) :
  object_centric a = false ->
  vec_env_of a tr =
  (Ok (VecFrameStack
         (make_atari_env (name a) (n_envs a) (seed a)
            [("render_mode", of_optional_str (render_mode a))]
            (if 1 <? n_envs a then SubprocVecEnvCls else DummyVecEnvCls)
            (if 1 <? n_envs a
             then Some [("start_method", VStr MULTIPROCESSING_START_METHOD)]
             else None)
            [("frame_skip", VInt (frameskip a))])
         (framestack a)),
   tr).
Proof.
  intros Hoc. unfold init_vec_env. rewrite Hoc.
  by destruct (1 <? n_envs a).
Qed.

Lemma range_length (n : Z) : length (range n) = Z.to_nat n.
Proof. unfold range. by rewrite length_map, length_seq. Qed.

Lemma range_lookup (n : Z) (i : nat) (r : Z) :
  range n !! i = Some r -> r = Z.of_nat i /\ (i < Z.to_nat n)%nat.
Proof.
  unfold range. rewrite list_lookup_fmap. intros H.
  destruct (seq 0 (Z.to_nat n) !! i) as [k|] eqn:E; [|done].
  apply lookup_seq in E as [-> Hlt]. simpl in H. by inversion H.
Qed.

Lemma range_NoDup (n : Z) : NoDup (range n).
Proof.
  unfold range. apply NoDup_fmap_2; [|apply NoDup_seq].
  intros x y. apply Nat2Z.inj.
Qed.

Lemma container_of_kind (a : VecEnvArgs) (envs : list ScobiFactory) :
  container_kind (container_of MULTIPROCESSING_START_METHOD a envs)
  = if 1 <? n_envs a then SubprocVecEnvCls else DummyVecEnvCls.
Proof. unfold container_of. by destruct (1 <? n_envs a). Qed.

Lemma container_of_factories (a : VecEnvArgs) (envs : list ScobiFactory) :
  factories (container_of MULTIPROCESSING_START_METHOD a envs) = envs.
Proof. unfold container_of. by destruct (1 <? n_envs a). Qed.

Lemma wrapper_of_venv (a : VecEnvArgs) (v : VecEnv) : venv_of (wrapper_of a v) = v.
Proof. unfold wrapper_of. by destruct (vec_norm_path a). Qed.

Lemma wrapper_of_normalized (a : VecEnvArgs) (v : VecEnv) :
  is_normalized (wrapper_of a v) = true.
Proof. unfold wrapper_of. by destruct (vec_norm_path a). Qed.

(** The handle of a call that returns, in either branch. *)
Lemma init_vec_env_returns (a : VecEnvArgs) (tr tr' : Trace) (e : Env) :
  vec_env_of a tr = (Ok e, tr') ->
  (object_centric a = true /\
   exists focus, focus_of a = Ok focus /\
     e = wrapper_of a (container_of MULTIPROCESSING_START_METHOD a
                         (map (ranked_factory a focus) (range (n_envs a)))))
  \/ (object_centric a = false /\ tr' = tr /\
      e = VecFrameStack
            (make_atari_env (name a) (n_envs a) (seed a)
               [("render_mode", of_optional_str (render_mode a))]
               (if 1 <? n_envs a then SubprocVecEnvCls else DummyVecEnvCls)
               (if 1 <? n_envs a
                then Some [("start_method", VStr MULTIPROCESSING_START_METHOD)]
                else None)
               [("frame_skip", VInt (frameskip a))])
            (framestack a)).
Proof.
  destruct (object_centric a) eqn:Hoc; intros H.
  - left. split; [done|].
    rewrite (init_vec_env_object_centric a tr Hoc) in H.
    destruct (focus_of a) as [focus|err]; [|done].
    exists focus. split; [done|]. by inversion H.
  - right. rewrite (init_vec_env_pixel a tr Hoc) in H. by inversion H.
Qed.

(** Both branches select the container by the same test [n_envs > 1]. *)
Lemma container_kind_selected (a : VecEnvArgs) (tr tr' : Trace) (e : Env) :
  vec_env_of a tr = (Ok e, tr') ->
  container_kind (venv_of e)
  = if 1 <? n_envs a then SubprocVecEnvCls else DummyVecEnvCls.
Proof.
  intros H.
  destruct (init_vec_env_returns a tr tr' e H)
    as [(_ & focus & _ & ->)|(_ & _ & ->)].
  - by rewrite wrapper_of_venv, container_of_kind.
  - reflexivity.
Qed.

(** C8. For every count of at least one environment, in the object-centric
    and in the pixel branch of [init_vec_env] alike, the container is the
    subprocess kind exactly when [n_envs > 1] and the single-process kind
    exactly when [n_envs = 1]. *)
Theorem container_kind_boundary (a : VecEnvArgs) (tr tr' : Trace) (e : Env) :
  vec_env_of a tr = (Ok e, tr') ->
  1 <= n_envs a ->
  (container_kind (venv_of e) = SubprocVecEnvCls <-> 1 < n_envs a)
  /\ (container_kind (venv_of e) = DummyVecEnvCls <-> n_envs a = 1).
Proof.
  intros H Hn. rewrite (container_kind_selected a tr tr' e H).
  destruct (Z.ltb_spec 1 (n_envs a)); repeat split; try done; try lia.
Qed.

(** C9. In object-centric mode the container holds exactly [n_envs]
    factories, of ranks 0 to [n_envs - 1] in order; the factory of rank [i],
    when called, wraps its object-centric environment in [Monitor] and
    resets it with seed [seed + i]; the derived seeds are pairwise
    distinct. *)
Theorem object_centric_factories (a : VecEnvArgs) (tr tr' : Trace) (e : Env) :
  object_centric a = true ->
  vec_env_of a tr = (Ok e, tr') ->
  length (factories (venv_of e)) = Z.to_nat (n_envs a)
  /\ (0 <= n_envs a -> Z.of_nat (length (factories (venv_of e))) = n_envs a)
  /\ map c_rank (factories (venv_of e)) = range (n_envs a)
  /\ (forall (i : nat) (f : ScobiFactory),
        factories (venv_of e) !! i = Some f ->
        c_rank f = Z.of_nat i
        /\ c_seed f = seed a
        /\ forall t : Trace, exists scobi : ScobiEnv,
             _init f t = (Ok (mkMonitor scobi),
                          t ++ [env_reset (mkMonitor scobi) (seed a + Z.of_nat i)]))
  /\ NoDup (map (fun f => c_seed f + c_rank f) (factories (venv_of e))).
Proof.
  intros Hoc H.
  destruct (init_vec_env_returns a tr tr' e H)
    as [(_ & focus & _ & ->)|(Hpx & _)]; [|congruence].
  rewrite wrapper_of_venv, container_of_factories.
  split; [|split; [|split; [|split]]].
  - by rewrite length_map, range_length.
  - intros Hn. rewrite length_map, range_length. lia.
  - rewrite map_map. cbn [ranked_factory c_rank]. apply map_id.
  - intros i f Hf. rewrite list_lookup_fmap in Hf.
    destruct (range (n_envs a) !! i) as [r|] eqn:Hr; [|done].
    apply range_lookup in Hr as [-> _]. simpl in Hf. inversion Hf; subst f.
    split; [done|]. split; [done|]. intros t. by eexists.
  - rewrite map_map. cbn [ranked_factory c_rank c_seed].
    apply NoDup_fmap_2; [|apply range_NoDup].
    intros x y. lia.
Qed.

(** C10. Without [object_centric] the handle is the frame-stacked pixel
    environment, not normalisation-wrapped, and [normalize_observation],
    [normalize_reward] and [vec_norm_path] do not change the result; with
    [object_centric] every handle returned is normalisation-wrapped, by a
    fresh [VecNormalize] with both toggles false when they are false and
    no path is given. *)
Theorem normalization_by_branch (a : VecEnvArgs) (tr : Trace) :
  (object_centric a = false ->
     (exists e, vec_env_of a tr = (Ok e, tr)
                /\ is_frame_stacked_pixel e = true
                /\ is_normalized e = false)
     /\ (forall (obs rew : bool) (path : option string),
           vec_env_of (with_normalization obs rew path a) tr = vec_env_of a tr))
  /\ (object_centric a = true ->
      forall (e : Env) (tr' : Trace),
        vec_env_of a tr = (Ok e, tr') ->
        is_normalized e = true
        /\ (normalize_observation a = false -> normalize_reward a = false ->
            vec_norm_path a = None ->
            e = VecNormalize (venv_of e) false false (train a))).
Proof.
  split.
  - intros Hoc. split.
    + eexists. split; [by apply init_vec_env_pixel|]. by split.
    + intros obs rew path.
      by rewrite !init_vec_env_pixel.
  - intros Hoc e tr' H.
    destruct (init_vec_env_returns a tr tr' e H)
      as [(_ & focus & _ & ->)|(Hpx & _)]; [|congruence].
    split; [apply wrapper_of_normalized|].
    intros Hobs Hrew Hpath. unfold wrapper_of.
    by rewrite Hpath, Hobs, Hrew.
Qed.

Lemma forwarded_call_args (n s : Z) (t : bool) (m : Z) (r : option string)
    (kw : ForwardedArgs) :
  forwarded (call_args n s t m r kw) = kw.
Proof. by destruct kw. Qed.

Lemma built_with_seed_returns (a : VecEnvArgs) (tr tr' : Trace) (e : Env) :
  vec_env_of a tr = (Ok e, tr') ->
  built_with_seed (seed a) e
  /\ built_with_render_mode (render_mode a) e
  /\ built_with_reward_mode (reward_mode a) e.
Proof.
  intros H. unfold built_with_seed, built_with_render_mode, built_with_reward_mode.
  destruct (init_vec_env_returns a tr tr' e H)
    as [(_ & focus & _ & ->)|(_ & _ & ->)].
  - rewrite wrapper_of_venv, !container_of_factories.
    assert (forall P : ScobiFactory -> Prop,
              (forall i, P (ranked_factory a focus i)) ->
              Forall P (map (ranked_factory a focus) (range (n_envs a)))) as HF.
    { intros P HP. apply Forall_forall. intros f Hf.
      apply list_elem_of_In, in_map_iff in Hf as (i & <- & _). apply HP. }
    unfold container_of.
    destruct (1 <? n_envs a); (split; [|split]); apply HF; intros i;
      cbn; auto.
  - cbn. split; [done|]. split; [done|]. constructor.
Qed.

Lemma init_vec_env_total (a : VecEnvArgs) (tr : Trace) :
  (object_centric a = true -> exists focus, focus_of a = Ok focus) ->
  exists (e : Env) (tr' : Trace), vec_env_of a tr = (Ok e, tr').
Proof.
  intros Hfocus. destruct (object_centric a) eqn:Hoc.
  - destruct (Hfocus eq_refl) as [focus Hf].
    rewrite (init_vec_env_object_centric a tr Hoc), Hf. by eexists _, _.
  - rewrite (init_vec_env_pixel a tr Hoc). by eexists _, _.
Qed.

(** C7. [init_train_eval_envs] returns whenever [REWARD_MODE] has the
    requested mode and, in object-centric mode, the focus resolves. When it
    returns, the train handle is what [init_vec_env] builds from the given
    seed and the reward mode [REWARD_MODE[reward_mode]] in training mode,
    and the eval handle is what it builds from seed [(seed + 42) * 2],
    reward mode 0 and render mode "human" when [render_eval] is set and
    [None] otherwise, in evaluation mode; both share the forwarded
    configuration. *)
Theorem train_and_eval_handles (n_train_envs n_eval_envs seed : Z)
    (reward_mode : string) (render_eval : bool) (kw : ForwardedArgs)
    (tr : Trace) :
  (forall mode : Z,
      REWARD_MODE !! reward_mode = Some mode ->
      (k_object_centric kw = true ->
       exists focus,
         focus_of (call_args n_train_envs seed true mode None kw) = Ok focus) ->
      exists (train_env eval_env : Env) (tr' : Trace),
        train_eval_of n_train_envs n_eval_envs seed reward_mode render_eval kw tr
        = (Ok (train_env, eval_env), tr'))
  /\
  forall (train_env eval_env : Env) (tr' : Trace),
  train_eval_of n_train_envs n_eval_envs seed reward_mode render_eval kw tr
  = (Ok (train_env, eval_env), tr') ->
  exists (train_args eval_args : VecEnvArgs) (tr1 : Trace),
    vec_env_of train_args tr = (Ok train_env, tr1)
    /\ vec_env_of eval_args tr1 = (Ok eval_env, tr')
    /\ (EnvsCommon.seed eval_args = (seed + 42) * 2
        /\ EnvsCommon.reward_mode eval_args = 0
        /\ (render_mode eval_args = Some "human" <-> render_eval = true)
        /\ (render_mode eval_args = None <-> render_eval = false)
        /\ train eval_args = false
        /\ n_envs eval_args = n_eval_envs)
    /\ (EnvsCommon.seed train_args = seed
        /\ REWARD_MODE !! reward_mode = Some (EnvsCommon.reward_mode train_args)
        /\ render_mode train_args = None
        /\ train train_args = true
        /\ n_envs train_args = n_train_envs)
    /\ (forwarded train_args = kw /\ forwarded eval_args = kw)
    /\ (built_with_seed ((seed + 42) * 2) eval_env
        /\ built_with_reward_mode 0 eval_env
        /\ built_with_render_mode (if render_eval then Some "human" else None)
             eval_env
        /\ built_with_seed seed train_env).
Proof.
  split.
  { intros mode Hmode Hfocus. unfold init_train_eval_envs.
    unfold bind at 1, lift, dict_getitem. rewrite Hmode.
    destruct (init_vec_env_total
                (call_args n_train_envs seed true mode None kw) tr Hfocus)
      as (te & tr1 & Htrain).
    unfold bind at 1. rewrite Htrain.
    destruct (init_vec_env_total
                (call_args n_eval_envs ((seed + 42) * 2) false 0
                   (if render_eval then Some "human" else None) kw) tr1 Hfocus)
      as (ee & tr2 & Heval).
    unfold bind at 1. rewrite Heval. by eexists _, _, _. }
  unfold init_train_eval_envs. intros train_env eval_env tr' H.
  unfold bind at 1, lift, dict_getitem in H.
  destruct (REWARD_MODE !! reward_mode) as [mode|] eqn:Hmode; [|done].
  unfold bind at 1 in H.
  destruct (vec_env_of (call_args n_train_envs seed true mode None kw) tr)
    as [[te|err] tr1] eqn:Htrain; [|done].
  unfold bind at 1 in H.
  destruct (vec_env_of
              (call_args n_eval_envs ((seed + 42) * 2) false 0
                 (if render_eval then Some "human" else None) kw) tr1)
    as [[ee|err] tr2] eqn:Heval; [|done].
  unfold ret in H. inversion H; subst te ee tr2.
  eexists _, _, tr1. split; [exact Htrain|]. split; [exact Heval|].
  destruct (built_with_seed_returns _ _ _ _ Htrain) as (Hts & _ & _).
  destruct (built_with_seed_returns _ _ _ _ Heval) as (Hes & Her & Hem).
  cbn [call_args EnvsCommon.seed EnvsCommon.reward_mode render_mode train n_envs]
    in *.
  rewrite !forwarded_call_args.
  repeat split; try done; try (by destruct render_eval).
Qed.

End Factory.

(** *** The factory on concrete configurations *)

(** Four object-centric environments are run in subprocesses, one pixel
    environment in the calling process. *)
Lemma container_kind_boundary_witness :
  (exists (e : EnvsCommon.Env) (tr' : EnvsCommon.Trace),
      EnvsCommon.init_vec_env "focusfiles" "focusfiles_unpruned" "fork"
        (EnvsCommon.default_args "ALE/Pong-v5" 4 7 true 0 (Some "unpruned")) []
      = (Ok e, tr')
      /\ EnvsCommon.container_kind (EnvsCommon.venv_of e)
         = EnvsCommon.SubprocVecEnvCls)
  /\ (exists (e : EnvsCommon.Env) (tr' : EnvsCommon.Trace),
        EnvsCommon.init_vec_env "focusfiles" "focusfiles_unpruned" "fork"
          (EnvsCommon.default_args "ALE/Pong-v5" 1 7 false 0 None) []
        = (Ok e, tr')
        /\ EnvsCommon.container_kind (EnvsCommon.venv_of e)
           = EnvsCommon.DummyVecEnvCls).
Proof.
  split; eexists _, _; (split; [cbv; reflexivity|]).
  - eapply (container_kind_boundary "focusfiles" "focusfiles_unpruned" "fork"
              (EnvsCommon.default_args "ALE/Pong-v5" 4 7 true 0 (Some "unpruned"))
              []);
      [cbv; reflexivity | by cbv | reflexivity].
  - eapply (container_kind_boundary "focusfiles" "focusfiles_unpruned" "fork"
              (EnvsCommon.default_args "ALE/Pong-v5" 1 7 false 0 None) []);
      [cbv; reflexivity | by cbv | reflexivity].
Defined.

(** Three object-centric environments: three factories, ranks 0, 1, 2. *)
Lemma object_centric_factories_witness :
  exists (e : EnvsCommon.Env) (tr' : EnvsCommon.Trace),
    EnvsCommon.init_vec_env "focusfiles" "focusfiles_unpruned" "fork"
      (EnvsCommon.default_args "ALE/Pong-v5" 3 7 true 0 (Some "default")) []
    = (Ok e, tr')
    /\ length (EnvsCommon.factories (EnvsCommon.venv_of e)) = 3%nat
    /\ map EnvsCommon.c_rank (EnvsCommon.factories (EnvsCommon.venv_of e))
       = [0; 1; 2].
Proof.
  eexists _, _. split; [cbv; reflexivity|].
  pose proof (object_centric_factories "focusfiles" "focusfiles_unpruned" "fork"
                (EnvsCommon.default_args "ALE/Pong-v5" 3 7 true 0 (Some "default"))
                [] _ _ eq_refl eq_refl) as (Hlen & _ & Hranks & _).
  split; [exact Hlen | exact Hranks].
Defined.

(** A pixel configuration is frame-stacked and never normalised; an
    object-centric one with both toggles false is wrapped all the same. *)
Lemma normalization_by_branch_witness :
  (exists e : EnvsCommon.Env,
      EnvsCommon.init_vec_env "focusfiles" "focusfiles_unpruned" "fork"
        (EnvsCommon.default_args "ALE/Pong-v5" 1 7 false 0 None) []
      = (Ok e, [])
      /\ EnvsCommon.is_frame_stacked_pixel e = true
      /\ EnvsCommon.is_normalized e = false)
  /\ EnvsCommon.is_normalized
       (EnvsCommon.VecNormalize
          (EnvsCommon.DummyVecEnv
             [EnvsCommon.ranked_factory
                (EnvsCommon.default_args "ALE/Pong-v5" 1 7 true 0 (Some "unpruned"))
                ("focusfiles_unpruned", None) 0])
          false false false) = true.
Proof.
  split.
  - apply (proj1 (normalization_by_branch "focusfiles" "focusfiles_unpruned"
                    "fork" (EnvsCommon.default_args "ALE/Pong-v5" 1 7 false 0 None)
                    [])).
    reflexivity.
  - eapply (proj2 (normalization_by_branch "focusfiles" "focusfiles_unpruned"
                     "fork"
                     (EnvsCommon.default_args "ALE/Pong-v5" 1 7 true 0
                        (Some "unpruned")) [])).
    + reflexivity.
    + cbv. reflexivity.
Defined.

(** Train seed 7 with reward mode "human": the eval handle is seeded 98,
    has reward mode 0 and renders. *)
Lemma train_and_eval_handles_witness :
  exists (train_env eval_env : EnvsCommon.Env) (tr' : EnvsCommon.Trace),
    EnvsCommon.init_train_eval_envs "focusfiles" "focusfiles_unpruned"
      {["env" := 0; "human" := 1; "mixed" := 2]} "fork" 2 1 7 "human" true
      (EnvsCommon.forwarded
         (EnvsCommon.default_args "ALE/Pong-v5" 0 0 true 0 (Some "default"))) []
    = (Ok (train_env, eval_env), tr')
    /\ EnvsCommon.built_with_seed 98 eval_env
    /\ EnvsCommon.built_with_reward_mode 0 eval_env
    /\ EnvsCommon.built_with_render_mode (Some "human") eval_env
    /\ EnvsCommon.built_with_seed 7 train_env.
Proof.
  eexists _, _, _.
  match goal with
  | |- ?returned /\ _ => assert returned as Hrun by (vm_compute; reflexivity)
  end.
  split; [exact Hrun|].
  destruct (proj2 (train_and_eval_handles _ _ _ _ _ _ _ _ _ _ _) _ _ _ Hrun)
    as (ta & ea & tr1 & _ & _ & _ & _ & _ & H).
  exact H.
Defined.

(** ** The metrics recorder *)

Section Recorder.
Import Logger.

Lemma push_push (xs ys : list Scalar) (l : Logger) :
  push ys (push xs l) = push (xs ++ ys) l.
Proof. unfold push. cbn. by rewrite app_assoc. Qed.

Lemma push_nil (l : Logger) : push [] l = l.
Proof. destruct l. unfold push. cbn. by rewrite app_nil_r. Qed.

Lemma option_statistics_run (ep_steps : Z) (item : Z * list Z) (l : Logger) :
  option_statistics ep_steps item l =
  if ep_steps =? 0
  then (Raise ZeroDivisionError, push [avg_length_scalar (n_eps l) item] l)
  else (Ok tt, push [avg_length_scalar (n_eps l) item;
                     active_scalar (n_eps l) ep_steps item] l).
Proof.
  unfold option_statistics, truediv, bind, attr, add_scalar, modify, lift, push,
    avg_length_scalar, active_scalar.
  cbn. destruct (ep_steps =? 0); cbn; [done|].
  by rewrite <- app_assoc.
Qed.

Lemma for_each_option_statistics (ep_steps : Z) (ol : list (Z * list Z))
    (l : Logger) :
  ep_steps <> 0 ->
  for_each ol (option_statistics ep_steps) l =
  (Ok tt, push (flat_map (fun item => [avg_length_scalar (n_eps l) item;
                                       active_scalar (n_eps l) ep_steps item])
                  ol) l).
Proof.
  intros Hnz. apply Z.eqb_neq in Hnz.
  revert l. induction ol as [|item ol IH]; intros l; cbn [for_each flat_map].
  - unfold ret. by rewrite push_nil.
  - unfold bind. rewrite option_statistics_run, Hnz, IH.
    by rewrite push_push.
Qed.

Lemma for_each_option_statistics_zero (ol : list (Z * list Z)) (l : Logger) :
  for_each ol (option_statistics 0) l =
  match ol with
  | [] => (Ok tt, l)
  | item :: _ => (Raise ZeroDivisionError, push [avg_length_scalar (n_eps l) item] l)
  end.
Proof.
  destruct ol as [|item ol]; cbn [for_each]; [done|].
  unfold bind. by rewrite option_statistics_run.
Qed.

(** One call of [log_episode], in full. *)
Lemma log_episode_run (now : Q) (steps : Z) (reward : Q)
    (ol : list (Z * list Z)) (ep_steps : Z) (epsilon : Q) (l : Logger) :
  log_episode now steps reward ol ep_steps epsilon l =
  (match ol with
   | _ :: _ => if ep_steps =? 0 then Raise ZeroDivisionError else Ok tt
   | [] => Ok tt
   end,
   {| target_path := target_path l;
      tf_writer := tf_writer l;
      start_time := start_time l;
      n_eps := n_eps l + 1;
      writer := writer l ++ episode_scalars (n_eps l + 1) reward ol ep_steps;
      log_lines := log_lines l ++
        [{| line_ep := n_eps l + 1; line_total_steps := steps;
            line_reward := reward; line_episode_steps := ep_steps;
            line_hours := ((now - start_time l) / 60 / 60)%Q;
            line_epsilon := epsilon |}] |}).
Proof.
  unfold log_episode.
  unfold bind at 1, modify. unfold bind at 1, attr. unfold bind at 1.
  unfold bind at 1, logging_info, modify. unfold bind at 1.
  unfold bind at 1, add_scalar, modify. unfold bind at 1.
  unfold bind at 1, modify. cbn [set_n_eps n_eps start_time writer log_lines
                                   target_path tf_writer].
  unfold episode_scalars.
  destruct (Z.eqb_spec ep_steps 0) as [->|Hnz].
  - rewrite for_each_option_statistics_zero.
    destruct ol as [|item ol]; cbn.
    + by rewrite <- app_assoc.
    + unfold push. cbn. by rewrite <- !app_assoc.
  - rewrite (for_each_option_statistics _ _ _ Hnz). unfold push. cbn.
    rewrite <- !app_assoc. cbn. by destruct ol.
Qed.

Lemma pairs_length {A B} (f g : A -> B) (xs : list A) :
  length (flat_map (fun x => [f x; g x]) xs) = (2 * length xs)%nat.
Proof. induction xs as [|x xs IH]; cbn [flat_map app length]; lia. Qed.

Lemma pairs_lookup_even {A B} (f g : A -> B) (xs : list A) (i : nat) :
  flat_map (fun x => [f x; g x]) xs !! (2 * i)%nat = f <$> xs !! i.
Proof.
  revert i. induction xs as [|x xs IH]; intros i; [done|].
  destruct i as [|i]; [done|].
  replace (2 * S i)%nat with (S (S (2 * i))) by lia. apply IH.
Qed.

Lemma pairs_lookup_odd {A B} (f g : A -> B) (xs : list A) (i : nat) :
  flat_map (fun x => [f x; g x]) xs !! (2 * i + 1)%nat = g <$> xs !! i.
Proof.
  revert i. induction xs as [|x xs IH]; intros i.
  - by rewrite !lookup_nil.
  - destruct i as [|i]; [done|].
    replace (2 * S i + 1)%nat with (S (S (2 * i + 1))) by lia. apply IH.
Qed.

Lemma lookup_after_two {A} (a b : A) (xs : list A) (k : nat) :
  (a :: b :: xs) !! (2 + k)%nat = xs !! k.
Proof. reflexivity. Qed.


Lemma truediv_is_quotient (a b : Z) :
  b <> 0 -> ((inject_Z a / inject_Z b) * inject_Z b == inject_Z a)%Q.
Proof.
  intros Hb. rewrite Qmult_comm. apply Qmult_div_r.
  unfold Qeq. simpl. lia.
Qed.

(** C3. When [ep_steps > 0] the call returns and, for the option at
    position [i] of the mapping, the scalar tagged [option_<o>_active] for
    the new episode is the sum of its lengths divided by [ep_steps]. When
    [ep_steps = 0] and some option has a non-empty sequence the call raises
    [ZeroDivisionError]. *)
Theorem active_fraction (now : Q) (steps : Z) (reward : Q)
    (ol : list (Z * list Z)) (ep_steps : Z) (epsilon : Q) (l : Logger) :
  (0 < ep_steps ->
     fst (log_episode now steps reward ol ep_steps epsilon l) = Ok tt
     /\ exists new : list Scalar,
          writer (snd (log_episode now steps reward ol ep_steps epsilon l))
          = writer l ++ new
          /\ length new = (2 + 2 * length ol)%nat
          /\ forall (i : nat) (option : Z) (lens : list Z),
               ol !! i = Some (option, lens) ->
               exists v : Q,
                 new !! (2 + (2 * i + 1))%nat
                 = Some (mkScalar (active_tag option) v (n_eps l + 1))
                 /\ v = (inject_Z (sum lens) / inject_Z ep_steps)%Q
                 /\ (v * inject_Z ep_steps == inject_Z (sum lens))%Q)
  /\ (ep_steps = 0 ->
      (exists (option : Z) (lens : list Z), In (option, lens) ol /\ lens <> []) ->
      fst (log_episode now steps reward ol ep_steps epsilon l)
      = Raise ZeroDivisionError).
Proof.
  rewrite log_episode_run. cbn [fst snd writer]. split.
  - intros Hpos.
    assert ((ep_steps =? 0) = false) as Hnz by (apply Z.eqb_neq; lia).
    rewrite Hnz. split; [by destruct ol|].
    unfold episode_scalars. rewrite Hnz.
    eexists. split; [reflexivity|]. split.
    + cbn [app length]. by rewrite pairs_length.
    + intros i option lens Hi. eexists. split; [|split; [reflexivity|]].
      * cbn [app]. rewrite lookup_after_two, pairs_lookup_odd, Hi.
        reflexivity.
      * apply truediv_is_quotient. lia.
  - intros -> (option & lens & Hin & _).
    destruct ol as [|item ol]; [by destruct Hin|done].
Qed.

(** An episode of 10 steps with two options, and an episode of no step. *)
Lemma active_fraction_witness :
  fst (log_episode 0 10 1 [(0, [4; 2]); (1, [])] 10 0 (__init__ "runs" 0)) = Ok tt
  /\ fst (log_episode 0 10 1 [(0, [4; 2]); (1, [])] 0 0 (__init__ "runs" 0))
     = Raise ZeroDivisionError.
Proof.
  split.
  - apply (proj1 (active_fraction 0 10 1 [(0, [4; 2]); (1, [])] 10 0
                    (__init__ "runs" 0))).
    reflexivity.
  - apply (proj2 (active_fraction 0 10 1 [(0, [4; 2]); (1, [])] 0 0
                    (__init__ "runs" 0))); [reflexivity|].
    exists 0, [4; 2]. split; [by left|discriminate].
Defined.



(** One call of [log_data], in full: a loss reaches the writer when the
    [if] takes it as true. *)
Lemma log_data_run (step : Z) (actor_loss critic_loss : option Tensor)
    (entropy epsilon : Q) (l : Logger) :
  log_data step actor_loss critic_loss entropy epsilon l =
  (Ok tt,
   push ((match actor_loss with
          | Some t => if truth actor_loss
                      then [mkScalar "actor_loss" (item t) step] else []
          | None => []
          end)
         ++ (match critic_loss with
             | Some t => if truth critic_loss
                         then [mkScalar "critic_loss" (item t) step] else []
             | None => []
             end)
         ++ [mkScalar "policy_entropy" entropy step;
             mkScalar "epsilon" epsilon step]) l).
Proof.
  unfold log_data, bind, add_scalar, modify, ret, push.
  destruct actor_loss as [ta|], critic_loss as [tc|]; cbn [truth];
    try destruct (negb (Qeq_bool (item ta) 0));
    try destruct (negb (Qeq_bool (item tc) 0));
    cbn; by rewrite <- ?app_assoc.
Qed.

Lemma log_data_n_eps (step : Z) (actor_loss critic_loss : option Tensor)
    (entropy epsilon : Q) (l : Logger) :
  n_eps (snd (log_data step actor_loss critic_loss entropy epsilon l)) = n_eps l.
Proof. by rewrite log_data_run. Qed.

Lemma perform_n_eps (c : Call) (l : Logger) :
  n_eps (snd (perform c l)) = if is_log_episode c then n_eps l + 1 else n_eps l.
Proof.
  destruct c; cbn [perform is_log_episode].
  - by rewrite log_episode_run.
  - apply log_data_n_eps.
Qed.

Lemma perform_all_snoc (cs : list Call) (c : Call) (l : Logger) :
  perform_all (cs ++ [c]) l = snd (perform c (perform_all cs l)).
Proof. unfold perform_all. by rewrite fold_left_app. Qed.

Lemma episode_calls_snoc (cs : list Call) (c : Call) :
  episode_calls (cs ++ [c])
  = if is_log_episode c then episode_calls cs + 1 else episode_calls cs.
Proof.
  induction cs as [|c' cs IH]; cbn.
  - by destruct (is_log_episode c).
  - fold (episode_calls (cs ++ [c])). fold (episode_calls cs). rewrite IH.
    by destruct (is_log_episode c), (is_log_episode c').
Qed.

(** C6. The counter is 0 after construction; every [log_episode] call
    leaves it exactly 1 higher, whether the call returns or raises;
    everything the first call records is keyed by 1; [log_data] leaves the
    counter alone; so after any sequence of calls on a new recorder the
    counter is the number of [log_episode] calls made, and each further
    [log_episode] call raises it by 1. *)
Theorem episode_counter :
  (forall (log_dir : string) (now : Q), n_eps (__init__ log_dir now) = 0)
  /\ (forall (now : Q) (steps : Z) (reward : Q) (ol : list (Z * list Z))
        (ep_steps : Z) (epsilon : Q) (l : Logger),
        n_eps (snd (log_episode now steps reward ol ep_steps epsilon l))
        = n_eps l + 1)
  /\ (forall (log_dir : string) (start now : Q) (steps : Z) (reward : Q)
        (ol : list (Z * list Z)) (ep_steps : Z) (epsilon : Q),
        let l' := snd (log_episode now steps reward ol ep_steps epsilon
                         (__init__ log_dir start)) in
        writer l' !! 0%nat = Some (mkScalar "episodic_rewards" reward 1)
        /\ Forall (fun e => global_step e = 1) (writer l')
        /\ Forall (fun line => line_ep line = 1) (log_lines l'))
  /\ (forall (step : Z) (actor_loss critic_loss : option Tensor)
        (entropy epsilon : Q) (l : Logger),
        n_eps (snd (log_data step actor_loss critic_loss entropy epsilon l))
        = n_eps l)
  /\ (forall (cs : list Call) (log_dir : string) (start : Q),
        n_eps (perform_all cs (__init__ log_dir start)) = episode_calls cs)
  /\ (forall (cs : list Call) (l : Logger) (now : Q) (steps : Z) (reward : Q)
        (ol : list (Z * list Z)) (ep_steps : Z) (epsilon : Q),
        n_eps (perform_all
                 (cs ++ [call_log_episode now steps reward ol ep_steps epsilon]) l)
        = n_eps (perform_all cs l) + 1).
Proof.
  split; [done|]. split; [|split; [|split; [|split]]].
  - intros. by rewrite log_episode_run.
  - intros. subst l'. rewrite log_episode_run.
    cbn [snd writer log_lines __init__ n_eps app]. split; [done|]. split.
    + unfold episode_scalars. cbn [app].
      repeat (apply Forall_cons; split; [done|]).
      destruct (ep_steps =? 0).
      * destruct ol; repeat constructor.
      * apply Forall_forall. intros e He.
        apply list_elem_of_In, in_flat_map in He as (item & _ & He).
        destruct He as [<-|[<-|[]]]; done.
    + by repeat constructor.
  - apply log_data_n_eps.
  - intros cs log_dir start.
    induction cs as [|c cs IH] using rev_ind; [done|].
    rewrite perform_all_snoc, perform_n_eps, episode_calls_snoc, IH.
    by destruct (is_log_episode c).
  - intros. by rewrite perform_all_snoc, perform_n_eps.
Qed.

Lemma truth_spec (x : option Tensor) :
  truth x = true <-> exists t, x = Some t /\ ~ (item t == 0)%Q.
Proof.
  destruct x as [t|]; cbn [truth].
  - rewrite negb_true_iff, <- not_true_iff_false, Qeq_bool_iff.
    split; [intros H; by exists t|]. by intros (t' & [= <-] & H).
  - split; [done|]. by intros (t & H & _).
Qed.

(** C1 on the code. [log_data] never raises, keys everything by [step] and
    always writes the entropy and the exploration rate last; a loss scalar
    is written exactly when the loss is present and its value is not 0. A
    loss that is present with value 0 is dropped like an absent one, because
    the [if] tests the loss itself and not whether it is [None]. *)
Theorem log_data_zero_loss (step : Z) (actor_loss critic_loss : option Tensor)
    (entropy epsilon : Q) (l : Logger) :
  fst (log_data step actor_loss critic_loss entropy epsilon l) = Ok tt
  /\ (exists losses : list Scalar,
        writer (snd (log_data step actor_loss critic_loss entropy epsilon l))
        = writer l ++ losses ++ [mkScalar "policy_entropy" entropy step;
                                 mkScalar "epsilon" epsilon step]
        /\ (forall v : Q,
              In (mkScalar "actor_loss" v step) losses
              <-> exists t, actor_loss = Some t /\ v = item t /\ ~ (item t == 0)%Q)
        /\ (forall v : Q,
              In (mkScalar "critic_loss" v step) losses
              <-> exists t, critic_loss = Some t /\ v = item t /\ ~ (item t == 0)%Q))
  /\ log_data step (Some (mkTensor 0)) critic_loss entropy epsilon l
     = log_data step None critic_loss entropy epsilon l
  /\ log_data step actor_loss (Some (mkTensor 0)) entropy epsilon l
     = log_data step actor_loss None entropy epsilon l.
Proof.
  rewrite !log_data_run. cbn [fst snd push writer].
  split; [done|]. split; [|split; reflexivity].
  eexists. split; [f_equal; apply app_assoc|].
  assert (forall (x : option Tensor) (name : string) (v : Q),
            In (mkScalar name v step)
              (match x with
               | Some t => if truth x then [mkScalar name (item t) step] else []
               | None => []
               end)
            <-> exists t, x = Some t /\ v = item t /\ ~ (item t == 0)%Q) as Hone.
  { intros x name v. destruct x as [t|].
    - destruct (truth (Some t)) eqn:Ht.
      + apply truth_spec in Ht as (t' & [= <-] & Hnz). split.
        * intros [[= <-]|[]]. by exists t.
        * intros (t' & [= <-] & -> & _). by left.
      + split; [done|]. intros (t' & [= <-] & _ & Hnz).
        assert (truth (Some t) = true) by (apply truth_spec; by exists t).
        congruence.
    - split; [done|]. by intros (t & H & _). }
  split; intros v; rewrite in_app_iff, !Hone.
  - split; [|by left]. intros [H|H]; [done|].
    exfalso. destruct critic_loss as [tc|]; [|done].
    destruct (truth (Some tc)); [|done].
    by destruct H as [[=]|[]].
  - split; [|by right]. intros [H|H]; [|done].
    exfalso. destruct actor_loss as [ta|]; [|done].
    destruct (truth (Some ta)); [|done].
    by destruct H as [[=]|[]].
Qed.

End Recorder.

(** ** More on the identifier of an environment name *)

Section Identifier.
Import Py EnvsCommon.
Local Arguments String.append !_ _ / : simpl nomatch.

Lemma has_char_app (c : ascii) (a b : string) :
  has_char c (a +:+ b) = has_char c a || has_char c b.
Proof.
  induction a as [|x a IH]; simpl; [done|].
  by rewrite IH, orb_assoc.
Qed.

Lemma lower_app (a b : string) : lower (a +:+ b) = lower a +:+ lower b.
Proof. induction a as [|x a IH]; simpl; [done|]. by rewrite IH. Qed.

Lemma lower_char_idemp (a : ascii) : lower_char (lower_char a) = lower_char a.
Proof. destruct a as [[] [] [] [] [] [] [] []]; reflexivity. Qed.

Lemma lower_char_slash (a : ascii) : Ascii.eqb (lower_char a) "/" = Ascii.eqb a "/".
Proof. destruct a as [[] [] [] [] [] [] [] []]; reflexivity. Qed.

Lemma lower_char_dash (a : ascii) : Ascii.eqb (lower_char a) "-" = Ascii.eqb a "-".
Proof. destruct a as [[] [] [] [] [] [] [] []]; reflexivity. Qed.

Lemma lower_idemp (s : string) : lower (lower s) = lower s.
Proof.
  induction s as [|a s IH]; simpl; [done|].
  by rewrite lower_char_idemp, IH.
Qed.

Lemma has_char_lower_slash (s : string) : has_char "/" (lower s) = has_char "/" s.
Proof.
  induction s as [|a s IH]; simpl; [done|].
  by rewrite lower_char_slash, IH.
Qed.

Lemma has_char_lower_dash (s : string) : has_char "-" (lower s) = has_char "-" s.
Proof.
  induction s as [|a s IH]; simpl; [done|].
  by rewrite lower_char_dash, IH.
Qed.

(** No field of a split holds the separator. *)
Lemma split_fields_no_sep (c : ascii) (s w : string) :
  In w (split c s) -> has_char c w = false.
Proof.
  revert w. induction s as [|a s IH]; simpl; intros w.
  - by intros [<-|[]].
  - destruct (Ascii.eqb a c) eqn:Hac.
    + intros [<-|Hw]; [done|]. by apply IH.
    + pose proof (split_not_nil c s) as Hne.
      destruct (split c s) as [|w0 ws]; [done|].
      intros [<-|Hw].
      * simpl. rewrite Hac. apply IH. by left.
      * apply IH. by right.
Qed.

Lemma getitem_In {A} (xs : list A) (i : nat) (x : A) :
  getitem xs i = Ok x -> In x xs.
Proof.
  unfold getitem. destruct (xs !! i) eqn:E; [|done].
  intros [= <-]. apply list_elem_of_In. by eapply list_elem_of_lookup_2.
Qed.

(** The first field of a split is a prefix of the string. *)
Lemma split_head_prefix (c : ascii) (s w : string) :
  getitem (split c s) 0 = Ok w -> exists rest, s = w +:+ rest.
Proof.
  revert w. induction s as [|a s IH]; simpl; intros w.
  - intros [= <-]. by exists "".
  - destruct (Ascii.eqb a c).
    + intros [= <-]. by eexists.
    + pose proof (split_not_nil c s) as Hne.
      destruct (split c s) as [|w0 ws]; [done|].
      intros [= <-]. destruct (IH w0 eq_refl) as [rest ->].
      by exists rest.
Qed.

(** X1. [get_atari_identifier] raises exactly when the name has no "/",
    the exception is always [IndexError], and it returns exactly when the
    name has a "/". *)
Theorem get_atari_identifier_errors (env_name : string) :
  (get_atari_identifier env_name = Raise IndexError
   <-> has_char "/" env_name = false)
  /\ (forall e : PyError, get_atari_identifier env_name = Raise e -> e = IndexError)
  /\ ((exists identifier, get_atari_identifier env_name = Ok identifier)
      <-> has_char "/" env_name = true).
Proof.
  destruct (has_char "/" env_name) eqn:Hs.
  - destruct (get_atari_identifier_slash _ Hs) as [identifier Hid].
    rewrite Hid. split; [split; done|]. split; [done|].
    split; [done|]. intros _. by exists identifier.
  - rewrite (get_atari_identifier_no_slash _ Hs).
    split; [done|]. split; [by intros e [= <-]|].
    split; [by intros [identifier H]|done].
Qed.

(** What is returned is the lower-cased first field of a field. *)
Lemma get_atari_identifier_fields (env_name identifier : string) :
  get_atari_identifier env_name = Ok identifier ->
  exists before_dash : string,
    identifier = lower before_dash
    /\ has_char "/" before_dash = false
    /\ has_char "-" before_dash = false.
Proof.
  unfold get_atari_identifier. intros H.
  destruct (getitem (split "/" env_name) 1) as [after_slash|] eqn:H1; [|done].
  cbn [rbind] in H.
  destruct (getitem (split "-" after_slash) 0) as [before_dash|] eqn:H0; [|done].
  cbn [rbind] in H. injection H as <-.
  exists before_dash. split; [done|].
  apply getitem_In, split_fields_no_sep in H1.
  split.
  - destruct (split_head_prefix "-" after_slash before_dash H0) as (rest & Hrest).
    rewrite Hrest, has_char_app in H1. by apply orb_false_iff in H1 as [? _].
  - by apply getitem_In, split_fields_no_sep in H0.
Qed.

(** X2. Whatever [get_atari_identifier] returns holds no "/" and no "-"
    and is already lower-case. *)
Theorem get_atari_identifier_shape (env_name identifier : string) :
  get_atari_identifier env_name = Ok identifier ->
  has_char "/" identifier = false
  /\ has_char "-" identifier = false
  /\ lower identifier = identifier.
Proof.
  intros H.
  destruct (get_atari_identifier_fields _ _ H) as (field & -> & Hslash & Hdash).
  by rewrite has_char_lower_slash, has_char_lower_dash, lower_idemp.
Qed.

(** "ALE/Pong-v5" gives an identifier of this shape. *)
Lemma get_atari_identifier_shape_witness :
  has_char "/" "pong" = false
  /\ has_char "-" "pong" = false
  /\ lower "pong" = "pong".
Proof.
  apply (get_atari_identifier_shape "ALE/Pong-v5" "pong"). reflexivity.
Defined.

(** X3. The identifier is the lower-cased text between the first "/" and
    the first "-" or "/" after it, or the end of the name: the text before
    the first "/" is not looked at and the version suffix may be missing. *)
Theorem get_atari_identifier_between (before game rest : string) :
  has_char "/" before = false ->
  has_char "/" game = false ->
  has_char "-" game = false ->
  rest = "" \/ startswith "/" rest = true \/ startswith "-" rest = true ->
  get_atari_identifier (before +:+ "/" +:+ game +:+ rest) = Ok (lower game).
Proof.
  intros Hbefore Hslash Hdash Hrest. unfold get_atari_identifier.
  change (before +:+ "/" +:+ game +:+ rest)
    with (before +:+ String "/" (game +:+ rest)).
  rewrite (split_sep_first "/" before _ Hbefore).
  assert (exists tail fields,
            split "/" (game +:+ rest) = (game +:+ tail) :: fields
            /\ (tail = "" \/ startswith "-" tail = true)) as (tail & fields & -> & Htail).
  { destruct Hrest as [->|[Hr|Hr]].
    - rewrite append_empty_r, (split_no_sep _ _ Hslash).
      exists "", []. by rewrite append_empty_r; split; [|left].
    - destruct rest as [|a rest]; [done|]. cbn [startswith] in Hr.
      apply andb_true_iff in Hr as [Ha _]. apply Ascii.eqb_eq in Ha as <-.
      rewrite (split_sep_first "/" game _ Hslash).
      exists "", (split "/" rest). by rewrite append_empty_r; split; [|left].
    - destruct rest as [|a rest]; [done|]. cbn [startswith] in Hr.
      apply andb_true_iff in Hr as [Ha _]. apply Ascii.eqb_eq in Ha as <-.
      rewrite (split_app_no_sep "/" game _ Hslash). cbn [split].
      change (Ascii.eqb "-" "/") with false. cbv iota.
      pose proof (split_not_nil "/" rest) as Hne.
      destruct (split "/" rest) as [|w ws]; [done|].
      exists (String "-" w), ws. split; [done|]. by right. }
  cbn [getitem lookup list_lookup rbind].
  destruct Htail as [->|Ht].
  - by rewrite append_empty_r, (split_no_sep _ _ Hdash).
  - destruct tail as [|a tail]; [done|]. cbn [startswith] in Ht.
    apply andb_true_iff in Ht as [Ha _]. apply Ascii.eqb_eq in Ha as <-.
    by rewrite (split_sep_first "-" game _ Hdash).
Qed.

(** A name without version suffix, and one with a longer path. *)
Lemma get_atari_identifier_between_witness :
  get_atari_identifier "ALE/Pong" = Ok "pong"
  /\ get_atari_identifier "envs/Ms-Pacman-v5/extra" = Ok "ms".
Proof.
  split.
  - apply (get_atari_identifier_between "ALE" "Pong" ""); try reflexivity.
    by left.
  - apply (get_atari_identifier_between "envs" "Ms" "-Pacman-v5/extra");
      try reflexivity.
    right. by right.
Defined.

(** X4. [get_pruned_focus_file_from_env_name] raises exactly for a name
    that contains "ALE" and no "/", always [IndexError]; for a name that
    contains "ALE" the file name it returns holds no "/" and is lower-case,
    and every file name it returns ends in ".yaml". *)
Theorem pruned_focus_file_shape (name : string) :
  (get_pruned_focus_file_from_env_name name = Raise IndexError
   <-> contains "ALE" name = true /\ has_char "/" name = false)
  /\ (forall e : PyError,
        get_pruned_focus_file_from_env_name name = Raise e -> e = IndexError)
  /\ (forall file : string,
        get_pruned_focus_file_from_env_name name = Ok file ->
        (exists identifier, file = identifier +:+ ".yaml")
        /\ (contains "ALE" name = true ->
            has_char "/" file = false /\ lower file = file)).
Proof.
  rewrite get_pruned_focus_file_env_identifier. unfold env_identifier.
  destruct (contains "ALE" name) eqn:HA.
  - destruct (has_char "/" name) eqn:Hs.
    + destruct (get_atari_identifier_slash _ Hs) as [identifier Hid].
      rewrite Hid. cbn [rbind].
      split; [split; [done|by intros [_ ?]]|]. split; [done|].
      intros file [= <-]. split; [by eexists|]. intros _.
      destruct (get_atari_identifier_fields _ _ Hid) as (field & -> & H1 & _).
      by rewrite has_char_app, lower_app, has_char_lower_slash, lower_idemp, H1.
    + rewrite (get_atari_identifier_no_slash _ Hs). cbn [rbind].
      split; [done|]. split; [by intros e [= <-]|done].
  - cbn [rbind]. split; [split; [done|by intros [? _]]|]. split; [done|].
    intros file [= <-]. split; [by eexists|done].
Qed.

End Identifier.

(** ** More on the vectorised-environment factory *)

Section FactoryEffects.
Import Py EnvsCommon.
Variables FOCUS_FILES_DIR FOCUS_FILES_DIR_UNPRUNED : string.
Variable REWARD_MODE : gmap string Z.
Variable MULTIPROCESSING_START_METHOD : string.

Abbreviation focus_path_of :=
  (get_focus_file_path FOCUS_FILES_DIR FOCUS_FILES_DIR_UNPRUNED).
Abbreviation resolved_focus :=
  (resolve_focus FOCUS_FILES_DIR FOCUS_FILES_DIR_UNPRUNED).
Abbreviation built :=
  (init_vec_env FOCUS_FILES_DIR FOCUS_FILES_DIR_UNPRUNED
     MULTIPROCESSING_START_METHOD).
Abbreviation built_pair :=
  (init_train_eval_envs FOCUS_FILES_DIR FOCUS_FILES_DIR_UNPRUNED REWARD_MODE
     MULTIPROCESSING_START_METHOD).

Lemma range_replicate (n : Z) (ev : Event) :
  map (fun _ => ev) (range n) = replicate (Z.to_nat n) ev.
Proof.
  unfold range. rewrite map_map. generalize 0%nat.
  induction (Z.to_nat n) as [|k IH]; intros start; cbn; [done|].
  by rewrite IH.
Qed.

Lemma In_range (n i : Z) : In i (range n) <-> 0 <= i < n.
Proof.
  unfold range. rewrite in_map_iff. split.
  - intros (k & <- & Hk). apply in_seq in Hk. lia.
  - intros Hi. exists (Z.to_nat i). split; [lia|]. apply in_seq. lia.
Qed.

(** X5. When the object-centric branch returns with concept "default",
    the directory and the file name it hands to every factory are the two
    arguments of the [Path(...)] that [get_focus_file_path] returns for the
    same name, and the file name is the one
    [get_pruned_focus_file_from_env_name] returns; with "unpruned" every
    factory is handed the unpruned directory and no file name. *)
Theorem focus_resolution_agrees (a : VecEnvArgs) (tr tr' : Trace) (e : Env) :
  object_centric a = true ->
  built a tr = (Ok e, tr') ->
  (prune_concept a = Some "default" ->
     exists file : string,
       get_pruned_focus_file_from_env_name (name a) = Ok file
       /\ focus_path_of "default" (name a) = Ok (mkPath FOCUS_FILES_DIR file)
       /\ Forall (fun f => c_focus_dir f = FOCUS_FILES_DIR
                           /\ c_pruned_ff_name f = Some file)
            (factories (venv_of e)))
  /\ (prune_concept a = Some "unpruned" ->
      Forall (fun f => c_focus_dir f = FOCUS_FILES_DIR_UNPRUNED
                       /\ c_pruned_ff_name f = None)
        (factories (venv_of e))).
Proof.
  intros Hoc H.
  destruct (init_vec_env_returns _ _ _ a tr tr' e H)
    as [(_ & focus & Hfocus & ->)|(Hpx & _)]; [|congruence].
  rewrite wrapper_of_venv, container_of_factories.
  assert (forall P : ScobiFactory -> Prop,
            (forall i, P (ranked_factory a focus i)) ->
            Forall P (map (ranked_factory a focus) (range (n_envs a)))) as HF.
  { intros P HP. apply Forall_forall. intros f Hf.
    apply list_elem_of_In, in_map_iff in Hf as (i & <- & _). apply HP. }
  unfold resolve_focus in Hfocus. split; intros Hc; rewrite Hc in Hfocus.
  - cbn [eq_str] in Hfocus. change ("default" =? "unpruned")%string with false in Hfocus.
    change ("default" =? "default")%string with true in Hfocus. cbv iota in Hfocus.
    rewrite get_focus_file_path_env_identifier.
    rewrite get_pruned_focus_file_env_identifier in Hfocus |- *.
    destruct (env_identifier (name a)) as [identifier|err]; [|done].
    cbn [rbind] in Hfocus. injection Hfocus as <-.
    eexists. split; [reflexivity|]. split; [reflexivity|].
    apply HF. intros i. by cbn.
  - cbn [eq_str] in Hfocus. change ("unpruned" =? "unpruned")%string with true in Hfocus.
    cbv iota in Hfocus. injection Hfocus as <-.
    apply HF. intros i. by cbn.
Qed.

(** X6. What the object-centric branch of [init_vec_env] itself does before
    it hands the factories to the container starts, in this order, with:
    the global seed set to 0, one probe environment built and reset with
    seed 0, that probe checked, and then the global seed set to [seed] once
    per factory. The probe is built verbose, refreshing its focus file and
    without the render settings; the factories are built silent and not
    refreshing, on the same focus directory and file. *)
Theorem probe_then_build (a : VecEnvArgs) (tr tr' : Trace) (e : Env) :
  object_centric a = true ->
  built a tr = (Ok e, tr') ->
  exists (probe : ScobiEnv) (rest : Trace),
    tr' = tr ++ [set_random_seed 0;
                 env_reset (mkMonitor probe) 0;
                 check_env probe]
             ++ replicate (Z.to_nat (n_envs a)) (set_random_seed (seed a))
             ++ rest
    /\ se_silent probe = false
    /\ se_refresh_yaml probe = true
    /\ se_reward_mode probe = reward_mode a
    /\ se_kwargs probe = [("freeze_invisible_obj", VBool (freeze_invisible_obj a))]
    /\ Forall (fun f => c_silent f = true /\ c_refresh f = false
                        /\ c_focus_dir f = se_focus_dir probe
                        /\ c_pruned_ff_name f = se_focus_file probe)
         (factories (venv_of e)).
Proof.
  intros Hoc H.
  rewrite (init_vec_env_object_centric _ _ _ a tr Hoc) in H.
  destruct (resolved_focus a) as [focus|err]; [|done].
  injection H as <- <-. exists (probe_env a focus), [].
  rewrite range_replicate, app_nil_r. split; [done|].
  rewrite wrapper_of_venv, container_of_factories.
  repeat (split; [done|]).
  apply Forall_forall. intros f Hf.
  by apply list_elem_of_In, in_map_iff in Hf as (i & <- & _).
Qed.

(** X7. In the object-centric branch with concept "default", a name that
    contains "ALE" and no "/" makes [init_vec_env] raise [IndexError]
    before any environment is built or any seed set. *)
Theorem init_vec_env_raises (a : VecEnvArgs) (tr : Trace) :
  object_centric a = true ->
  prune_concept a = Some "default" ->
  contains "ALE" (name a) = true ->
  has_char "/" (name a) = false ->
  built a tr = (Raise IndexError, tr).
Proof.
  intros Hoc Hc HA Hs.
  rewrite (init_vec_env_object_centric _ _ _ a tr Hoc).
  unfold resolve_focus. rewrite Hc. cbn [eq_str].
  change ("default" =? "unpruned")%string with false.
  change ("default" =? "default")%string with true. cbv iota.
  rewrite get_pruned_focus_file_env_identifier.
  by rewrite (env_identifier_raises _ HA Hs).
Qed.

(** X8. [init_train_eval_envs] raises [KeyError] for a reward mode that is
    no key of [REWARD_MODE], and [ValueError] in object-centric mode for a
    concept other than "default" and "unpruned"; in both cases nothing has
    been built and no seed set. *)
Theorem init_train_eval_envs_raises (n_train_envs n_eval_envs seed : Z)
    (reward_mode : string) (render_eval : bool) (kw : ForwardedArgs)
    (tr : Trace) :
  (REWARD_MODE !! reward_mode = None ->
   built_pair n_train_envs n_eval_envs seed reward_mode render_eval kw tr
   = (Raise (KeyError reward_mode), tr))
  /\ (forall mode : Z,
        REWARD_MODE !! reward_mode = Some mode ->
        k_object_centric kw = true ->
        k_prune_concept kw <> Some "default" ->
        k_prune_concept kw <> Some "unpruned" ->
        exists msg : string,
          built_pair n_train_envs n_eval_envs seed reward_mode render_eval kw tr
          = (Raise (ValueError msg), tr)).
Proof.
  unfold init_train_eval_envs. split.
  - intros Hmode. unfold bind at 1, lift, dict_getitem. by rewrite Hmode.
  - intros mode Hmode Hoc Hd Hu. unfold bind at 1, lift, dict_getitem.
    rewrite Hmode. unfold bind at 1.
    assert (object_centric (call_args n_train_envs seed true mode None kw) = true)
      as Hoc' by exact Hoc.
    rewrite (init_vec_env_object_centric _ _ _ _ tr Hoc').
    destruct (resolve_focus_unknown FOCUS_FILES_DIR FOCUS_FILES_DIR_UNPRUNED
                (call_args n_train_envs seed true mode None kw) Hd Hu)
      as [msg ->].
    by exists msg.
Qed.

(** X9. For a train seed that is not negative, in object-centric mode, some
    environment of the train handle is reset with the same seed as some
    environment of the eval handle exactly when there is an eval environment
    and at least [seed + 85] train environments; with fewer than 85 train
    environments the two handles share no seed. *)
Theorem train_eval_shared_seed (n_train_envs n_eval_envs seed : Z)
    (reward_mode : string) (render_eval : bool) (kw : ForwardedArgs)
    (tr tr' : Trace) (train_env eval_env : Env) :
  0 <= seed ->
  k_object_centric kw = true ->
  built_pair n_train_envs n_eval_envs seed reward_mode render_eval kw tr
  = (Ok (train_env, eval_env), tr') ->
  ((exists s : Z, In s (reset_seeds train_env) /\ In s (reset_seeds eval_env))
   <-> (1 <= n_eval_envs /\ seed + 85 <= n_train_envs))
  /\ (n_train_envs < 85 ->
      forall s : Z, In s (reset_seeds train_env) -> ~ In s (reset_seeds eval_env)).
Proof.
  intros Hseed Hoc H. unfold init_train_eval_envs in H.
  unfold bind at 1, lift, dict_getitem in H.
  destruct (REWARD_MODE !! reward_mode) as [mode|]; [|done].
  unfold bind at 1 in H.
  destruct (built (call_args n_train_envs seed true mode None kw) tr)
    as [[te|err] tr1] eqn:Htrain; [|done].
  unfold bind at 1 in H.
  destruct (built (call_args n_eval_envs ((seed + 42) * 2) false 0
                     (if render_eval then Some "human" else None) kw) tr1)
    as [[ee|err] tr2] eqn:Heval; [|done].
  injection H as <- <- <-.
  assert (forall (args : VecEnvArgs) (t t' : Trace) (h : Env),
            object_centric args = true ->
            built args t = (Ok h, t') ->
            forall s, In s (reset_seeds h)
                      <-> EnvsCommon.seed args <= s < EnvsCommon.seed args + n_envs args)
    as Hseeds.
  { intros args t t' h Hargs Hh s.
    destruct (init_vec_env_returns _ _ _ args t t' h Hh)
      as [(_ & focus & _ & ->)|(Hpx & _)]; [|congruence].
    unfold reset_seeds. rewrite wrapper_of_venv, container_of_factories, map_map.
    cbn [ranked_factory c_seed c_rank]. rewrite in_map_iff. split.
    - intros (i & <- & Hi). apply In_range in Hi. lia.
    - intros Hs. exists (s - EnvsCommon.seed args). split; [lia|].
      apply In_range. lia. }
  pose proof (Hseeds (call_args n_train_envs seed true mode None kw)
                _ _ _ Hoc Htrain) as HT.
  pose proof (Hseeds (call_args n_eval_envs ((seed + 42) * 2) false 0
                        (if render_eval then Some "human" else None) kw)
                _ _ _ Hoc Heval) as HE.
  cbn [call_args EnvsCommon.seed n_envs] in HT, HE. split; [split|].
  - intros (s & Ht & He). apply HT in Ht. apply HE in He. lia.
  - intros (Hne & Hnt).
    exists ((seed + 42) * 2). split; [apply HT|apply HE]; lia.
  - intros Hfew s Ht He. apply HT in Ht. apply HE in He. lia.
Qed.

(** X16. The pixel branch reads only the name, the count, the seed, the
    render mode and the frame-skip and frame-stack values: two pixel
    configurations that agree on these give the same result, whatever their
    reward mode, concept, training flag and other settings. The
    object-centric branch does not read frame-skip and frame-stack. *)
Theorem unread_parameters (a b : VecEnvArgs) (tr : Trace) :
  (object_centric a = false -> object_centric b = false ->
   name a = name b -> n_envs a = n_envs b -> EnvsCommon.seed a = EnvsCommon.seed b ->
   render_mode a = render_mode b -> frameskip a = frameskip b ->
   framestack a = framestack b ->
   built a tr = built b tr)
  /\ (object_centric a = true ->
      forall skip stack : Z, built (with_frames skip stack a) tr = built a tr).
Proof.
  split.
  - intros Ha Hb Hname Hn Hseed Hrender Hskip Hstack.
    rewrite (init_vec_env_pixel _ _ _ a tr Ha), (init_vec_env_pixel _ _ _ b tr Hb).
    by rewrite Hname, Hn, Hseed, Hrender, Hskip, Hstack.
  - intros Hoc skip stack.
    by rewrite !init_vec_env_object_centric.
Qed.

(** X17. Every handle of the object-centric branch carries the [train]
    flag as its [training] attribute, also when the statistics are loaded;
    when a path to statistics is given the two normalisation toggles are not
    read. *)
Theorem training_flag_and_loaded_statistics (a : VecEnvArgs) (tr tr' : Trace)
    (e : Env) :
  object_centric a = true ->
  built a tr = (Ok e, tr') ->
  training_flag e = Some (train a)
  /\ (forall path : string,
        vec_norm_path a = Some path ->
        e = VecNormalize_load path (venv_of e) (train a)
        /\ forall obs rew : bool,
             built (with_normalization obs rew (Some path) a) tr = built a tr).
Proof.
  intros Hoc H.
  destruct (init_vec_env_returns _ _ _ a tr tr' e H)
    as [(_ & focus & _ & ->)|(Hpx & _)]; [|congruence].
  split.
  - unfold wrapper_of. by destruct (vec_norm_path a).
  - intros path Hpath. split.
    + unfold wrapper_of. by rewrite Hpath.
    + intros obs rew.
      rewrite !init_vec_env_object_centric by done.
      change (resolved_focus (with_normalization obs rew (Some path) a))
        with (resolved_focus a).
      destruct (resolved_focus a) as [f|err]; [|done].
      unfold wrapper_of. cbn [with_normalization vec_norm_path train].
      by rewrite Hpath.
Qed.

End FactoryEffects.

(** *** The effects on concrete configurations *)

(** "ALE/Pong-v5" with concept "default": both resolvers give
    focusfiles and pong.yaml. *)
Lemma focus_resolution_agrees_witness :
  exists file : string,
    EnvsCommon.get_pruned_focus_file_from_env_name "ALE/Pong-v5" = Ok file
    /\ EnvsCommon.get_focus_file_path "focusfiles" "focusfiles_unpruned"
         "default" "ALE/Pong-v5" = Ok (EnvsCommon.mkPath "focusfiles" file)
    /\ Forall (fun f => EnvsCommon.c_focus_dir f = "focusfiles"
                        /\ EnvsCommon.c_pruned_ff_name f = Some file)
         [EnvsCommon.ranked_factory
            (EnvsCommon.default_args "ALE/Pong-v5" 1 7 true 0 (Some "default"))
            ("focusfiles", Some "pong.yaml") 0].
Proof.
  eapply (proj1 (focus_resolution_agrees "focusfiles" "focusfiles_unpruned" "fork"
                   (EnvsCommon.default_args "ALE/Pong-v5" 1 7 true 0 (Some "default"))
                   [] _ _ eq_refl eq_refl)).
  reflexivity.
Defined.

(** Two object-centric environments with seed 7: the probe, then two
    settings of the global seed. *)
Lemma probe_then_build_witness :
  exists (e : EnvsCommon.Env) (tr' : EnvsCommon.Trace)
         (probe : EnvsCommon.ScobiEnv) (rest : EnvsCommon.Trace),
    EnvsCommon.init_vec_env "focusfiles" "focusfiles_unpruned" "fork"
      (EnvsCommon.default_args "ALE/Pong-v5" 2 7 true 0 (Some "unpruned")) []
    = (Ok e, tr')
    /\ tr' = [EnvsCommon.set_random_seed 0;
              EnvsCommon.env_reset (EnvsCommon.mkMonitor probe) 0;
              EnvsCommon.check_env probe;
              EnvsCommon.set_random_seed 7;
              EnvsCommon.set_random_seed 7] ++ rest.
Proof.
  eexists _, _.
  match goal with
  | |- exists probe rest, ?returned /\ _ =>
      assert returned as Hrun by (cbv; reflexivity)
  end.
  pose proof (fun Hoc => probe_then_build _ _ _ _ _ _ _ Hoc Hrun) as Hprobe.
  destruct (Hprobe eq_refl) as (probe & rest & Htr & _).
  exists probe, rest. split; [exact Hrun | exact Htr].
Defined.

(** Concept "default" with the name "MyALEGame". *)
Lemma init_vec_env_raises_witness :
  EnvsCommon.init_vec_env "focusfiles" "focusfiles_unpruned" "fork"
    (EnvsCommon.default_args "MyALEGame" 2 7 true 0 (Some "default")) []
  = (Raise IndexError, []).
Proof.
  apply (init_vec_env_raises "focusfiles" "focusfiles_unpruned" "fork"
           (EnvsCommon.default_args "MyALEGame" 2 7 true 0 (Some "default")) []);
    reflexivity.
Defined.

(** A reward mode that is no key of the dictionary. *)
Lemma init_train_eval_envs_raises_witness :
  EnvsCommon.init_train_eval_envs "focusfiles" "focusfiles_unpruned"
    {["env" := 0; "human" := 1]} "fork" 2 1 7 "shaped" true
    (EnvsCommon.forwarded
       (EnvsCommon.default_args "ALE/Pong-v5" 0 0 false 0 None)) []
  = (Raise (KeyError "shaped"), []).
Proof.
  apply (proj1 (init_train_eval_envs_raises "focusfiles" "focusfiles_unpruned"
                  {["env" := 0; "human" := 1]} "fork" 2 1 7 "shaped" true
                  (EnvsCommon.forwarded
                     (EnvsCommon.default_args "ALE/Pong-v5" 0 0 false 0 None))
                  [])).
  vm_compute. reflexivity.
Defined.

(** Seed 7 with four train and two eval environments: the train
    environments are reset with 7 to 10, the eval environments with 98 and
    99. *)
Lemma train_eval_shared_seed_witness :
  exists (train_env eval_env : EnvsCommon.Env) (tr' : EnvsCommon.Trace),
    EnvsCommon.init_train_eval_envs "focusfiles" "focusfiles_unpruned"
      {["env" := 0; "human" := 1]} "fork" 4 2 7 "env" false
      (EnvsCommon.forwarded
         (EnvsCommon.default_args "ALE/Pong-v5" 0 0 true 0 (Some "unpruned"))) []
    = (Ok (train_env, eval_env), tr')
    /\ forall s : Z, In s (EnvsCommon.reset_seeds train_env) ->
                     ~ In s (EnvsCommon.reset_seeds eval_env).
Proof.
  eexists _, _, _.
  match goal with
  | |- ?returned /\ _ => assert returned as Hrun by (vm_compute; reflexivity)
  end.
  split; [exact Hrun|].
  pose proof (fun Hseed Hoc =>
                proj2 (train_eval_shared_seed _ _ _ _ _ _ _ _ _ _ _ _ _ _
                         Hseed Hoc Hrun)) as Hnone.
  apply Hnone; [lia | reflexivity | lia].
Defined.

(** ** More on the metrics recorder *)

Section RecorderInvariants.
Import Logger.
Local Arguments String.append !_ _ / : simpl nomatch.

Lemma range_succ (k : Z) : 0 <= k -> Py.range (k + 1) = Py.range k ++ [k].
Proof.
  intros Hk. unfold Py.range.
  replace (Z.to_nat (k + 1)) with (S (Z.to_nat k)) by lia.
  rewrite seq_S, map_app. cbn. f_equal. f_equal. lia.
Qed.

Lemma perform_all_n_eps (cs : list Call) (log_dir : string) (start : Q) :
  n_eps (perform_all cs (__init__ log_dir start)) = episode_calls cs.
Proof.
  induction cs as [|c cs IH] using rev_ind; [done|].
  rewrite perform_all_snoc, perform_n_eps, episode_calls_snoc, IH.
  by destruct (is_log_episode c).
Qed.

Lemma episode_calls_nonneg (cs : list Call) : 0 <= episode_calls cs.
Proof.
  induction cs as [|c cs IH]; cbn; [done|].
  fold (episode_calls cs). destruct (is_log_episode c); lia.
Qed.

Lemma steps_tagged_app (t : string) (xs ys : list Scalar) :
  steps_tagged t (xs ++ ys) = steps_tagged t xs ++ steps_tagged t ys.
Proof. unfold steps_tagged. by rewrite List.filter_app, map_app. Qed.

(** A tag that does not start with "o" is no option tag. *)
Lemma option_tag_eqb (option : Z) (t : string) :
  Py.startswith "o" t = false ->
  String.eqb (avg_length_tag option) t = false
  /\ String.eqb (active_tag option) t = false.
Proof.
  destruct t as [|a t]; [done|]. cbn [Py.startswith]. rewrite andb_true_r.
  intros Ha. unfold avg_length_tag, active_tag. cbn [String.append String.eqb].
  by rewrite Ha.
Qed.

Lemma steps_tagged_options (t : string) (ep ep_steps : Z)
    (ol : list (Z * list Z)) :
  Py.startswith "o" t = false ->
  steps_tagged t (flat_map (fun item => [avg_length_scalar ep item;
                                         active_scalar ep ep_steps item]) ol) = [].
Proof.
  intros Ht. induction ol as [|item ol IH]; [done|].
  cbn [flat_map]. rewrite steps_tagged_app, IH, app_nil_r.
  unfold steps_tagged. cbn [List.filter avg_length_scalar active_scalar tag].
  destruct (option_tag_eqb (fst item) t Ht) as [-> ->]. done.
Qed.

Lemma steps_tagged_episode (ep : Z) (reward : Q) (ol : list (Z * list Z))
    (ep_steps : Z) :
  steps_tagged "episodic_rewards" (episode_scalars ep reward ol ep_steps) = [ep]
  /\ steps_tagged "episode_lengths" (episode_scalars ep reward ol ep_steps) = [ep].
Proof.
  unfold episode_scalars. rewrite !steps_tagged_app.
  assert (forall t, Py.startswith "o" t = false ->
            steps_tagged t
              (if ep_steps =? 0
               then match ol with
                    | [] => []
                    | item :: _ => [avg_length_scalar ep item]
                    end
               else flat_map (fun item => [avg_length_scalar ep item;
                                           active_scalar ep ep_steps item]) ol)
            = []) as Hrest.
  { intros t Ht. destruct (ep_steps =? 0).
    - destruct ol as [|item ol]; [done|].
      unfold steps_tagged. cbn [List.filter avg_length_scalar tag].
      by destruct (option_tag_eqb (fst item) t Ht) as [-> _].
    - by apply steps_tagged_options. }
  by rewrite !Hrest.
Qed.

Lemma steps_tagged_log_data (t : string) (step : Z)
    (actor_loss critic_loss : option Tensor) (entropy epsilon : Q) (l : Logger) :
  t = "episodic_rewards" \/ t = "episode_lengths" ->
  steps_tagged t (writer (snd (log_data step actor_loss critic_loss entropy
                                 epsilon l)))
  = steps_tagged t (writer l).
Proof.
  intros Ht. rewrite log_data_run. cbn [snd push writer].
  rewrite !steps_tagged_app.
  assert (forall (x : option Tensor) (name : string),
            String.eqb name t = false ->
            steps_tagged t
              (match x with
               | Some v => if truth x then [mkScalar name (item v) step] else []
               | None => []
               end) = []) as Hloss.
  { intros x name Hname. destruct x as [v|]; [|done].
    destruct (truth (Some v)); [|done].
    unfold steps_tagged. cbn. by rewrite Hname. }
  rewrite !Hloss by (by destruct Ht as [->| ->]).
  destruct Ht as [->| ->]; cbn; by rewrite app_nil_r.
Qed.

(** X10. On a new recorder, after any sequence of calls, the log lines
    carry the episode numbers 1, 2, ..., k in order, and so do the steps of
    the "episodic_rewards" and of the "episode_lengths" scalars, where k is
    the number of [log_episode] calls: also the calls that raised count, and
    no [log_data] call or option scalar is written under these tags. *)
Theorem episodes_numbered (cs : list Call) (log_dir : string) (start : Q) :
  map line_ep (log_lines (perform_all cs (__init__ log_dir start)))
  = map (Z.add 1) (Py.range (episode_calls cs))
  /\ steps_tagged "episodic_rewards"
       (writer (perform_all cs (__init__ log_dir start)))
     = map (Z.add 1) (Py.range (episode_calls cs))
  /\ steps_tagged "episode_lengths"
       (writer (perform_all cs (__init__ log_dir start)))
     = map (Z.add 1) (Py.range (episode_calls cs)).
Proof.
  induction cs as [|c cs (IHl & IHr & IHe)] using rev_ind; [done|].
  rewrite perform_all_snoc, episode_calls_snoc.
  pose proof (perform_all_n_eps cs log_dir start) as Hn.
  pose proof (episode_calls_nonneg cs) as Hk.
  destruct c as [now steps reward ol ep_steps epsilon|step al cl entropy epsilon];
    cbn [perform is_log_episode].
  - rewrite log_episode_run. cbn [snd log_lines writer].
    rewrite (range_succ _ Hk), !map_app, !steps_tagged_app, IHl, IHr, IHe, Hn.
    destruct (steps_tagged_episode (episode_calls cs + 1) reward ol ep_steps)
      as [-> ->].
    cbn [map]. by rewrite (Z.add_comm 1).
  - rewrite !steps_tagged_log_data by auto.
    rewrite log_data_run. cbn [snd push log_lines]. done.
Qed.

(** X11. A [log_episode] call that raises is not undone: the counter has
    advanced, the log line is written, and the writer has received exactly
    the reward, the episode length 0 and the mean length of the first
    option, and no "active" scalar. It raises exactly when [ep_steps] is 0
    and the mapping has an option. *)
Theorem log_episode_raise_state (now : Q) (steps : Z) (reward : Q)
    (ol : list (Z * list Z)) (ep_steps : Z) (epsilon : Q) (l : Logger)
    (e : PyError) :
  fst (log_episode now steps reward ol ep_steps epsilon l) = Raise e ->
  e = ZeroDivisionError
  /\ ep_steps = 0
  /\ n_eps (snd (log_episode now steps reward ol ep_steps epsilon l)) = n_eps l + 1
  /\ length (log_lines (snd (log_episode now steps reward ol ep_steps epsilon l)))
     = S (length (log_lines l))
  /\ exists (first : Z * list Z) (rest : list (Z * list Z)),
       ol = first :: rest
       /\ writer (snd (log_episode now steps reward ol ep_steps epsilon l))
          = writer l ++ [mkScalar "episodic_rewards" reward (n_eps l + 1);
                         mkScalar "episode_lengths" 0 (n_eps l + 1);
                         avg_length_scalar (n_eps l + 1) first].
Proof.
  rewrite log_episode_run. cbn [fst snd n_eps log_lines writer].
  intros H. destruct ol as [|first rest]; [done|].
  destruct (Z.eqb_spec ep_steps 0) as [->|Hnz]; [|done].
  injection H as <-. split; [done|]. split; [done|]. split; [done|].
  split; [rewrite length_app; cbn; lia|].
  by exists first, rest.
Qed.

(** An episode of no step with one option: the call raises after three
    scalars. *)
Lemma log_episode_raise_state_witness :
  ZeroDivisionError = ZeroDivisionError
  /\ 0 = 0
  /\ n_eps (snd (log_episode 0 10 1 [(0, [4; 2])] 0 0 (__init__ "runs" 0))) = 0 + 1
  /\ length (log_lines (snd (log_episode 0 10 1 [(0, [4; 2])] 0 0
                               (__init__ "runs" 0))))
     = S (length (log_lines (__init__ "runs" 0)))
  /\ exists (first : Z * list Z) (rest : list (Z * list Z)),
       [(0, [4; 2])] = first :: rest
       /\ writer (snd (log_episode 0 10 1 [(0, [4; 2])] 0 0 (__init__ "runs" 0)))
          = writer (__init__ "runs" 0)
            ++ [mkScalar "episodic_rewards" 1 (0 + 1);
                mkScalar "episode_lengths" 0 (0 + 1);
                avg_length_scalar (0 + 1) first].
Proof.
  apply (log_episode_raise_state 0 10 1 [(0, [4; 2])] 0 0 (__init__ "runs" 0)
           ZeroDivisionError).
  reflexivity.
Defined.

Lemma sum_bounds (lens : list Z) (lo hi : Z) :
  (forall x, In x lens -> lo <= x <= hi) ->
  lo * Z.of_nat (length lens) <= sum lens <= hi * Z.of_nat (length lens).
Proof.
  induction lens as [|x lens IH]; intros H; [cbn; lia|].
  assert (lo <= x <= hi) by (apply H; by left).
  assert (lo * Z.of_nat (length lens) <= sum lens <= hi * Z.of_nat (length lens))
    by (apply IH; intros y Hy; apply H; by right).
  cbn [length sum fold_right]. fold (sum lens). lia.
Qed.

(** X13. For an option whose lengths are not negative and add up to at
    most 2^53 (the integers binary64 holds exactly, so that only the final
    division rounds, and it rounds monotonically between integer bounds),
    the mean length a call records lies between any two bounds of the
    lengths: it is never below the shortest nor above the longest
    activation. It is recorded for the first option always and for the
    others when [ep_steps] is not 0. *)
Theorem mean_length_bounds (now : Q) (steps : Z) (reward : Q)
    (ol : list (Z * list Z)) (ep_steps : Z) (epsilon : Q) (l : Logger)
    (i : nat) (option : Z) (lens : list Z) (lo hi : Z) :
  ol !! i = Some (option, lens) ->
  lens <> [] ->
  (forall x, In x lens -> lo <= x <= hi) ->
  0 <= lo ->
  sum lens <= 2 ^ 53 ->
  (i = 0%nat \/ ep_steps <> 0) ->
  exists (new : list Scalar) (e : Scalar),
    writer (snd (log_episode now steps reward ol ep_steps epsilon l))
    = writer l ++ new
    /\ new !! (2 + 2 * i)%nat = Some e
    /\ tag e = avg_length_tag option
    /\ (inject_Z lo <= scalar_value e /\ scalar_value e <= inject_Z hi)%Q.
Proof.
  intros Hi Hne Hbounds _ _ Hrecorded.
  rewrite log_episode_run. cbn [snd writer].
  exists (episode_scalars (n_eps l + 1) reward ol ep_steps),
         (avg_length_scalar (n_eps l + 1) (option, lens)).
  split; [reflexivity|]. split.
  { unfold episode_scalars. cbn [app]. rewrite lookup_after_two.
    destruct (Z.eqb_spec ep_steps 0) as [Hz|Hnz].
    - destruct Hrecorded as [->|?]; [|done].
      destruct ol as [|first rest]; [done|]. cbn in Hi |- *. congruence.
    - by rewrite pairs_lookup_even, Hi. }
  split; [done|].
  cbn [avg_length_scalar scalar_value snd].
  destruct lens as [|x lens]; [done|].
  cbn [length Nat.ltb Nat.leb]. unfold np_mean.
  pose proof (sum_bounds (x :: lens) lo hi Hbounds) as [Hlo Hhi].
  assert (0 < inject_Z (Z.of_nat (length (x :: lens))))%Q as Hpos.
  { rewrite <- (Zlt_Qlt 0). cbn [length]. lia. }
  split.
  - apply Qle_shift_div_l; [exact Hpos|].
    by rewrite <- inject_Z_mult, <- Zle_Qle.
  - apply Qle_shift_div_r; [exact Hpos|].
    by rewrite <- inject_Z_mult, <- Zle_Qle.
Qed.

(** Activations of 2 to 4 steps: the recorded mean lies in between. *)
Lemma mean_length_bounds_witness :
  exists (new : list Scalar) (e : Scalar),
    writer (snd (log_episode 0 10 1 [(0, [4; 2; 3])] 10 0 (__init__ "runs" 0)))
    = writer (__init__ "runs" 0) ++ new
    /\ new !! (2 + 2 * 0)%nat = Some e
    /\ tag e = avg_length_tag 0
    /\ (inject_Z 2 <= scalar_value e /\ scalar_value e <= inject_Z 4)%Q.
Proof.
  apply (mean_length_bounds 0 10 1 [(0, [4; 2; 3])] 10 0 (__init__ "runs" 0)
           0%nat 0 [4; 2; 3] 2 4).
  - reflexivity.
  - discriminate.
  - intros x [<-|[<-|[<-|[]]]]; lia.
  - lia.
  - cbv. discriminate.
  - by left.
Defined.

Lemma string_length_app (a b : string) :
  String.length (a +:+ b) = (String.length a + String.length b)%nat.
Proof. induction a as [|x a IH]; simpl; [done|]. by rewrite IH. Qed.

Lemma append_inj_l (a b c : string) : a +:+ c = b +:+ c -> a = b.
Proof.
  revert b. induction a as [|x a IH]; intros [|y b] H; simpl in H.
  - done.
  - apply (f_equal String.length) in H. simpl in H.
    rewrite string_length_app in H. lia.
  - apply (f_equal String.length) in H. simpl in H.
    rewrite string_length_app in H. lia.
  - injection H as -> H. f_equal. by apply IH.
Qed.

Lemma last_char_app (a b : string) :
  b <> "" -> Py.last_char (a +:+ b) = Py.last_char b.
Proof.
  intros Hb. induction a as [|x a IH]; simpl; [done|].
  rewrite <- IH. destruct (a +:+ b) eqn:E; [|done].
  destruct a; simpl in E; [done|discriminate].
Qed.

Lemma last_char_app2 (a b c : string) :
  c <> "" -> Py.last_char (a +:+ b +:+ c) = Py.last_char c.
Proof.
  intros Hc. rewrite last_char_app; [by apply last_char_app|].
  destruct b; simpl; [done|discriminate].
Qed.

Lemma str_of_int_inj (z z' : Z) : Py.str_of_int z = Py.str_of_int z' -> z = z'.
Proof.
  unfold Py.str_of_int. intros H.
  assert (forall n : Z, NilZero.int_of_string (NilZero.string_of_int (Z.to_int n))
                        = Some (Z.to_int n)) as Hisi.
  { intros n. apply NilZero.isi; destruct n as [|q|q]; cbn; try discriminate;
      intros [= Hq]; by apply (DecimalPos.Unsigned.to_uint_nonnil q). }
  apply DecimalZ.to_int_inj.
  pose proof (Hisi z) as Hz. rewrite H, Hisi in Hz. congruence.
Qed.

(** X14. Different options are written under different tags: the
    mean-length tag and the active tag each determine the option, the two
    never coincide, and neither is one of the six fixed tags of the
    recorder. *)
Theorem option_tags_distinct (option option' : Z) :
  (avg_length_tag option = avg_length_tag option' -> option = option')
  /\ (active_tag option = active_tag option' -> option = option')
  /\ avg_length_tag option <> active_tag option'
  /\ (forall t : string,
        In t ["episodic_rewards"; "episode_lengths"; "actor_loss";
              "critic_loss"; "policy_entropy"; "epsilon"] ->
        avg_length_tag option <> t /\ active_tag option <> t).
Proof.
  unfold avg_length_tag, active_tag. split; [|split; [|split]].
  - intros H. cbn [String.append] in H. injection H as H.
    by apply append_inj_l, str_of_int_inj in H.
  - intros H. cbn [String.append] in H. injection H as H.
    by apply append_inj_l, str_of_int_inj in H.
  - intros H. apply (f_equal Py.last_char) in H.
    rewrite !last_char_app2 in H by discriminate. discriminate H.
  - intros t Ht. cbn [String.append].
    repeat (destruct Ht as [<-|Ht]; [split; discriminate|]). destruct Ht.
Qed.

(** X15. No call rewrites what the recorder holds: over any sequence of
    calls the destination path and the start time stay the same, the
    scalars and the log lines recorded before stay in place as a prefix,
    one log line is added per [log_episode] call, and the counter never
    goes back. *)
Theorem recorder_append_only (cs : list Call) (l : Logger) :
  target_path (perform_all cs l) = target_path l
  /\ start_time (perform_all cs l) = start_time l
  /\ tf_writer (perform_all cs l) = tf_writer l
  /\ (exists ws : list Scalar, writer (perform_all cs l) = writer l ++ ws)
  /\ (exists ls : list EpisodeLine,
        log_lines (perform_all cs l) = log_lines l ++ ls
        /\ Z.of_nat (length ls) = episode_calls cs)
  /\ n_eps (perform_all cs l) = n_eps l + episode_calls cs
  /\ n_eps l <= n_eps (perform_all cs l).
Proof.
  assert (target_path (perform_all cs l) = target_path l
          /\ start_time (perform_all cs l) = start_time l
          /\ tf_writer (perform_all cs l) = tf_writer l
          /\ (exists ws : list Scalar, writer (perform_all cs l) = writer l ++ ws)
          /\ (exists ls : list EpisodeLine,
                log_lines (perform_all cs l) = log_lines l ++ ls
                /\ Z.of_nat (length ls) = episode_calls cs)
          /\ n_eps (perform_all cs l) = n_eps l + episode_calls cs) as H.
  { induction cs as [|c cs (IHp & IHs & IHt & (ws & IHw) & (ls & IHl & IHk) & IHn)]
      using rev_ind.
    - cbn. repeat split; try done; try lia.
      + exists []. by rewrite app_nil_r.
      + exists []. by rewrite app_nil_r.
    - rewrite perform_all_snoc, episode_calls_snoc.
      destruct c as [now steps reward ol ep_steps epsilon|step al cl entropy epsilon];
        cbn [perform is_log_episode].
      + rewrite log_episode_run.
        cbn [snd target_path start_time tf_writer writer log_lines n_eps].
        repeat (split; [done|]). split; [|split].
        * eexists. by rewrite IHw, <- app_assoc.
        * eexists. rewrite IHl, <- app_assoc. split; [done|].
          rewrite length_app. cbn. lia.
        * lia.
      + rewrite log_data_run.
        cbn [snd push target_path start_time tf_writer writer log_lines n_eps].
        repeat (split; [done|]). split; [|split; [|done]].
        * eexists. by rewrite IHw, <- app_assoc.
        * by exists ls. }
  destruct H as (? & ? & ? & ? & ? & Hn). repeat (split; [done|]).
  pose proof (episode_calls_nonneg cs). lia.
Qed.

End RecorderInvariants.

(** *** More concrete configurations *)

(** A pixel configuration built for training with reward mode 2 gives the
    same handle as the default one. *)
Lemma unread_parameters_witness :
  EnvsCommon.init_vec_env "focusfiles" "focusfiles_unpruned" "fork"
    (EnvsCommon.call_args 2 7 true 2 None
       (EnvsCommon.forwarded
          (EnvsCommon.default_args "ALE/Pong-v5" 0 0 false 0 (Some "bogus")))) []
  = EnvsCommon.init_vec_env "focusfiles" "focusfiles_unpruned" "fork"
      (EnvsCommon.default_args "ALE/Pong-v5" 2 7 false 0 None) [].
Proof.
  apply (proj1 (unread_parameters "focusfiles" "focusfiles_unpruned" "fork"
                  (EnvsCommon.call_args 2 7 true 2 None
                     (EnvsCommon.forwarded
                        (EnvsCommon.default_args "ALE/Pong-v5" 0 0 false 0
                           (Some "bogus"))))
                  (EnvsCommon.default_args "ALE/Pong-v5" 2 7 false 0 None) []));
    reflexivity.
Defined.

(** A training handle built from loaded statistics. *)
Lemma training_flag_and_loaded_statistics_witness :
  exists (e : EnvsCommon.Env) (tr' : EnvsCommon.Trace),
    EnvsCommon.init_vec_env "focusfiles" "focusfiles_unpruned" "fork"
      (EnvsCommon.with_normalization true true (Some "stats.pkl")
         (EnvsCommon.call_args 1 7 true 0 None
            (EnvsCommon.forwarded
               (EnvsCommon.default_args "ALE/Pong-v5" 0 0 true 0
                  (Some "unpruned"))))) []
    = (Ok e, tr')
    /\ EnvsCommon.training_flag e = Some true.
Proof.
  eexists _, _.
  match goal with
  | |- ?returned /\ _ => assert returned as Hrun by (cbv; reflexivity)
  end.
  split; [exact Hrun|].
  pose proof (fun Hoc => proj1 (training_flag_and_loaded_statistics
                                  _ _ _ _ _ _ _ Hoc Hrun)) as Hflag.
  apply Hflag. reflexivity.
Defined.

(** "ALE/Ms-Pacman-v5" resolves to a bare lower-case file name. *)
Lemma pruned_focus_file_shape_witness :
  (exists identifier, "ms.yaml" = identifier +:+ ".yaml")
  /\ (Py.contains "ALE" "ALE/Ms-Pacman-v5" = true ->
      Py.has_char "/" "ms.yaml" = false /\ Py.lower "ms.yaml" = "ms.yaml").
Proof.
  apply (proj2 (proj2 (pruned_focus_file_shape "ALE/Ms-Pacman-v5")) "ms.yaml").
  reflexivity.
Defined.
